(** * Restful-Booker API test suite: client, endpoints, schemas, fixtures

    A shallow embedding of the Python sources

      - [src/endpoints/config.py], [auth.py], [booking.py], [ping.py]
      - [src/api_client.py]   (class [RestfulBookerClient])
      - [src/schemas.py]      (the JSON Schema dictionaries)
      - [src/models.py]       (the pydantic models)
      - [tests/conftest.py]   (the booking-creating fixtures)

    Python [str] values are represented by their UTF-8 byte strings, so that
    [s.encode()] is the identity on the representation.  Dictionaries with
    string keys are finite maps ([gmap string _]); [{**d, k: v}] is
    [<[k:=v]> d].  Code that performs HTTP calls or raises is written in a
    state-and-exception monad whose state holds the client's [token] field,
    the session together with the remote API, and the history of the requests
    handed to the session. *)

From Stdlib Require Import ZArith NArith String Ascii.
From Stdlib Require Import Floats.SpecFloat.
From stdpp Require Import gmap strings list fin_maps pretty.

Open Scope Z_scope.

(** ** Python values that arise from JSON *)

(** [json.loads] yields [None], [bool], [int], [float], [str], [list] and
    [dict] (string keys).  [JNull] is Python's [None]. *)
#[warnings="-register-all"]
Inductive json : Type :=
| JNull
| JBool (b : bool)
| JInt (n : Z)
| JFloat (f : spec_float)
| JStr (s : string)
| JArr (l : list json)
| JObj (m : gmap string json).

(** ** Exceptions and results *)

Inductive exn : Type :=
| Exception (msg : string)        (* [raise Exception(...)] *)
| AssertionError
| TypeError
| KeyError (key : string)
| JSONDecodeError                 (* raised by [response.json()] *)
| RequestException (msg : string) (* raised by the [requests] session *)
| ValidationError.                (* raised by pydantic *)

Inductive result (A : Type) : Type :=
| Ok (a : A)
| Raise (e : exn).
Arguments Ok {A} a.
Arguments Raise {A} e.

Definition is_ok {A} (r : result A) : bool :=
  match r with Ok _ => true | Raise _ => false end.

(** ** Python built-in operations used by the sources *)

(** Truth value testing, [bool(v)], as used by [if v:] and [a and b]. *)
Definition truthy (v : json) : bool :=
  match v with
  | JNull => false
  | JBool b => b
  | JInt n => negb (n =? 0)
  | JFloat (S754_zero _) => false
  | JFloat _ => true
  | JStr s => negb (String.eqb s "")
  | JArr l => negb (bool_decide (l = []))
  | JObj m => negb (bool_decide (m = ∅))
  end.

(** [needle in s] for two strings: substring test. *)
Fixpoint substring_in (needle s : string) : bool :=
  String.prefix needle s ||
  match s with
  | EmptyString => false
  | String _ s' => substring_in needle s'
  end.

(** ["k" == v] for a string [k] and an arbitrary value [v]. *)
Definition str_eq_value (k : string) (v : json) : bool :=
  match v with
  | JStr s => String.eqb k s
  | _ => false
  end.

(** [k in data] for a string [k]. *)
Definition py_in (k : string) (data : json) : result bool :=
  match data with
  | JObj m => Ok (bool_decide (is_Some (m !! k)))
  | JArr l => Ok (existsb (str_eq_value k) l)
  | JStr s => Ok (substring_in k s)
  | _ => Raise TypeError
  end.

(** [data[k]] for a string [k]. *)
Definition py_getitem (data : json) (k : string) : result json :=
  match data with
  | JObj m =>
      match m !! k with
      | Some v => Ok v
      | None => Raise (KeyError k)
      end
  | _ => Raise TypeError
  end.

(** [if v: params[k] = v] for an [Optional[str]] argument [v]. *)
Definition set_if_truthy (k : string) (v : option string)
    (params : gmap string string) : gmap string string :=
  match v with
  | Some x => if truthy (JStr x) then <[k := x]> params else params
  | None => params
  end.

(** ** Base64 ([base64.b64encode], RFC 4648 standard alphabet with padding) *)

Definition b64_alphabet : string :=
  "ABCDEFGHIJKLMNOPQRSTUVWXYZabcdefghijklmnopqrstuvwxyz0123456789+/".

Definition b64_char (n : N) : ascii :=
  default "="%char (String.get (N.to_nat n) b64_alphabet).

Fixpoint b64encode_bytes (l : list N) : string :=
  match l with
  | [] => ""
  | [a] =>
      String (b64_char (a / 4))
        (String (b64_char ((a mod 4) * 16)) "==")
  | [a; b] =>
      String (b64_char (a / 4))
        (String (b64_char ((a mod 4) * 16 + b / 16))
           (String (b64_char ((b mod 16) * 4)) "="))
  | a :: b :: c :: rest =>
      String (b64_char (a / 4))
        (String (b64_char ((a mod 4) * 16 + b / 16))
           (String (b64_char ((b mod 16) * 4 + c / 64))
              (String (b64_char (c mod 64)) (b64encode_bytes rest))))
  end%N.

Definition b64encode (s : string) : string :=
  b64encode_bytes (N_of_ascii <$> list_ascii_of_string s).

(** ** The platform the code runs on *)

(** [os.getenv] after [load_dotenv()], and [repr] of the values whose
    formatting the development does not spell out (floats, lists, dicts). *)
Class Environment : Type := {
  getenv : string → option string;
  repr : json → string;
}.

(** [format(v)], the conversion an f-string applies to [{v}]. *)
Definition format `{Environment} (v : json) : string :=
  match v with
  | JStr s => s
  | JInt n => pretty n
  | JBool true => "True"
  | JBool false => "False"
  | JNull => "None"
  | _ => repr v
  end.

(** [os.getenv(key, default)] *)
Definition os_getenv `{Environment} (key dflt : string) : string :=
  default dflt (getenv key).

(** ** [src/endpoints/config.py] *)

Definition BASE_URL `{Environment} : string :=
  os_getenv "BASE_URL" "https://restful-booker.herokuapp.com".

Definition HEADERS : gmap string string :=
  list_to_map [
    ("Content-Type", "application/json");
    ("Accept", "application/json")
  ].

Definition HEADERS_XML : gmap string string :=
  list_to_map [
    ("Content-Type", "text/xml");
    ("Accept", "application/xml")
  ].

Definition HEADERS_URLENCODED : gmap string string :=
  list_to_map [
    ("Content-Type", "application/x-www-form-urlencoded");
    ("Accept", "application/json")
  ].

(** ** [src/endpoints/auth.py] *)

Definition AUTH_ENDPOINT `{Environment} : string := BASE_URL +:+ "/auth".

Definition DEFAULT_USERNAME `{Environment} : string :=
  os_getenv "API_USERNAME" "admin".
Definition DEFAULT_PASSWORD `{Environment} : string :=
  os_getenv "API_PASSWORD" "password123".

Definition get_auth_header `{Environment} (token : json) : gmap string string :=
  <["Cookie" := "token=" +:+ format token]> HEADERS.

Definition get_basic_auth_header `{Environment}
    (username password : option string) : gmap string string :=
  let username := default DEFAULT_USERNAME username in
  let password := default DEFAULT_PASSWORD password in
  let credentials := b64encode (username +:+ ":" +:+ password) in
  <["Authorization" := "Basic " +:+ credentials]> HEADERS.

(** ** [src/endpoints/booking.py], [src/endpoints/ping.py] *)

Definition BOOKING_ENDPOINT `{Environment} : string := BASE_URL +:+ "/booking".

Definition get_booking_url `{Environment} (booking_id : json) : string :=
  BOOKING_ENDPOINT +:+ "/" +:+ format booking_id.

Definition PING_ENDPOINT `{Environment} : string := BASE_URL +:+ "/ping".

(** ** HTTP requests and responses *)

Inductive verb : Type := GET | POST | PUT | PATCH | DELETE.

(** The keyword arguments a call on [requests.Session] may carry. *)
Record kwargs : Type := {
  kw_params : option (gmap string string);
  kw_json : option json;
  kw_data : option string;
  kw_headers : option (gmap string string);
}.

Definition no_kwargs : kwargs :=
  {| kw_params := None; kw_json := None; kw_data := None; kw_headers := None |}.

Record request : Type := {
  req_method : verb;
  req_url : string;
  req_kwargs : kwargs;
}.

(** A [requests.Response]: [body] is [None] when [text] is not JSON, in
    which case [response.json()] raises. *)
Record response : Type := {
  status_code : Z;
  text : string;
  body : option json;
}.

Definition response_json (r : response) : result json :=
  match body r with
  | Some v => Ok v
  | None => Raise JSONDecodeError
  end.

(** The session together with the remote API: a call either raises or
    returns a response, and may change the state of both. *)
Class Network : Type := {
  world : Type;
  send : request → world → result response * world;
}.

(** ** The state-and-exception monad *)

Record state `{Network} : Type := {
  token : json;             (* [self.token] of the client in use *)
  net : world;
  history : list request;   (* requests handed to the session, oldest first *)
}.

Definition M `{Network} (A : Type) : Type := state → result A * state.

Definition ret `{Network} {A} (a : A) : M A := λ s, (Ok a, s).

Definition bind `{Network} {A B} (m : M A) (k : A → M B) : M B :=
  λ s, match m s with
       | (Ok a, s') => k a s'
       | (Raise e, s') => (Raise e, s')
       end.

Definition raise `{Network} {A} (e : exn) : M A := λ s, (Raise e, s).

Definition lift `{Network} {A} (r : result A) : M A := λ s, (r, s).

(** [try: m except Exception: h] *)
Definition try_except `{Network} {A} (m : M A) (h : exn → M A) : M A :=
  λ s, match m s with
       | (Ok a, s') => (Ok a, s')
       | (Raise e, s') => h e s'
       end.

Definition get_token `{Network} : M json := λ s, (Ok (token s), s).

Definition set_token `{Network} (v : json) : M unit :=
  λ s, (Ok tt, {| token := v; net := net s; history := history s |}).

Definition when `{Network} (b : bool) (m : M unit) : M unit :=
  if b then m else ret tt.

Notation "x <- m ;; k" := (bind m (λ x, k))
  (at level 100, m at next level, right associativity,
   format "'[v' x  <-  m  ;; '/' k ']'").
Notation "m ;;; k" := (bind m (λ _, k))
  (at level 100, right associativity,
   format "'[v' m  ;;; '/' k ']'").

(** [self.session.request(method, url, **kwargs)] *)
Definition session_request `{Network} (m : verb) (u : string) (kw : kwargs)
    : M response :=
  λ s, let rq := {| req_method := m; req_url := u; req_kwargs := kw |} in
       let '(r, w) := send rq (net s) in
       (r, {| token := token s; net := w; history := history s ++ [rq] |}).

(** ** [src/api_client.py]: class [RestfulBookerClient] *)

Section RestfulBookerClient.
Context `{Environment} `{Network}.

(** [__init__]: [self.token = None]. *)
Definition init : M unit := set_token JNull.

Definition create_token (username password : option string) : M response :=
  let username := default DEFAULT_USERNAME username in
  let password := default DEFAULT_PASSWORD password in
  let payload :=
    JObj (list_to_map [("username", JStr username);
                       ("password", JStr password)]) in
  response <- session_request POST AUTH_ENDPOINT
                {| kw_params := None; kw_json := Some payload;
                   kw_data := None; kw_headers := Some HEADERS |} ;;
  when (status_code response =? 200) (
    data <- lift (response_json response) ;;
    has_token <- lift (py_in "token" data) ;;
    when has_token (
      v <- lift (py_getitem data "token") ;;
      set_token v)) ;;;
  ret response.

Definition authenticate : M json :=
  response <- create_token None None ;;
  tok <- get_token ;;
  if (status_code response =? 200) && truthy tok then
    ret tok
  else
    raise (Exception ("Authentication failed: " +:+ text response)).

Definition health_check : M response :=
  session_request GET PING_ENDPOINT no_kwargs.

Definition get_booking_ids (firstname lastname checkin checkout : option string)
    : M response :=
  let params : gmap string string := ∅ in
  let params := set_if_truthy "firstname" firstname params in
  let params := set_if_truthy "lastname" lastname params in
  let params := set_if_truthy "checkin" checkin params in
  let params := set_if_truthy "checkout" checkout params in
  session_request GET BOOKING_ENDPOINT
    {| kw_params := Some params; kw_json := None;
       kw_data := None; kw_headers := Some HEADERS |}.

Definition get_booking (booking_id : json) (accept : option string)
    : M response :=
  let accept := default "application/json" accept in
  let headers := <["Accept" := accept]> HEADERS in
  session_request GET (get_booking_url booking_id)
    {| kw_params := None; kw_json := None;
       kw_data := None; kw_headers := Some headers |}.

Definition create_booking (booking_data : json) : M response :=
  session_request POST BOOKING_ENDPOINT
    {| kw_params := None; kw_json := Some booking_data;
       kw_data := None; kw_headers := Some HEADERS |}.

Definition update_booking (booking_id booking_data : json)
    (use_token : option bool) : M response :=
  let use_token := default true use_token in
  tok <- get_token ;;
  let headers :=
    if use_token && truthy tok
    then get_auth_header tok
    else get_basic_auth_header None None in
  session_request PUT (get_booking_url booking_id)
    {| kw_params := None; kw_json := Some booking_data;
       kw_data := None; kw_headers := Some headers |}.

Definition partial_update_booking (booking_id booking_data : json)
    (use_token : option bool) : M response :=
  let use_token := default true use_token in
  tok <- get_token ;;
  let headers :=
    if use_token && truthy tok
    then get_auth_header tok
    else get_basic_auth_header None None in
  session_request PATCH (get_booking_url booking_id)
    {| kw_params := None; kw_json := Some booking_data;
       kw_data := None; kw_headers := Some headers |}.

Definition delete_booking (booking_id : json) (use_token : option bool)
    : M response :=
  let use_token := default true use_token in
  tok <- get_token ;;
  let headers :=
    if use_token && truthy tok
    then get_auth_header tok
    else get_basic_auth_header None None in
  session_request DELETE (get_booking_url booking_id)
    {| kw_params := None; kw_json := None;
       kw_data := None; kw_headers := Some headers |}.

Definition raw_get (url : string) (kw : kwargs) : M response :=
  session_request GET url kw.
Definition raw_post (url : string) (kw : kwargs) : M response :=
  session_request POST url kw.
Definition raw_put (url : string) (kw : kwargs) : M response :=
  session_request PUT url kw.
Definition raw_patch (url : string) (kw : kwargs) : M response :=
  session_request PATCH url kw.
Definition raw_delete (url : string) (kw : kwargs) : M response :=
  session_request DELETE url kw.

End RestfulBookerClient.

(** ** [src/schemas.py] *)

(** The schemas are JSON Schema documents; [is_valid] gives the keywords
    they use ([type], [required], [properties], [additionalProperties],
    [items]) the meaning [jsonschema.validate] gives them. *)

Inductive jtype : Type :=
| TNull | TBoolean | TInteger | TNumber | TString | TArray | TObject.

(** A schema dictionary.  [sch_type] lists the names under ["type"] (a
    single name is a one-element list); an absent [required] or
    [properties] is the empty list, an absent [additionalProperties] is
    [true], an absent [items] is [None]. *)
#[warnings="-register-all"]
Inductive schema : Type :=
| Schema (sch_type : list jtype)
         (sch_required : list string)
         (sch_properties : list (string * schema))
         (sch_additionalProperties : bool)
         (sch_items : option schema).

Definition sch_type (s : schema) : list jtype :=
  let 'Schema t _ _ _ _ := s in t.
Definition sch_required (s : schema) : list string :=
  let 'Schema _ r _ _ _ := s in r.
Definition sch_properties (s : schema) : list (string * schema) :=
  let 'Schema _ _ p _ _ := s in p.
Definition sch_additionalProperties (s : schema) : bool :=
  let 'Schema _ _ _ a _ := s in a.

Definition BOOKING_DATES_SCHEMA : schema :=
  Schema [TObject]
    ["checkin"; "checkout"]
    [("checkin", Schema [TString] [] [] true None);
     ("checkout", Schema [TString] [] [] true None)]
    false None.

Definition BOOKING_SCHEMA : schema :=
  Schema [TObject]
    ["firstname"; "lastname"; "totalprice"; "depositpaid"; "bookingdates"]
    [("firstname", Schema [TString] [] [] true None);
     ("lastname", Schema [TString] [] [] true None);
     ("totalprice", Schema [TInteger] [] [] true None);
     ("depositpaid", Schema [TBoolean] [] [] true None);
     ("bookingdates", BOOKING_DATES_SCHEMA);
     ("additionalneeds", Schema [TString; TNull] [] [] true None)]
    false None.

Definition BOOKING_RESPONSE_SCHEMA : schema :=
  Schema [TObject]
    ["bookingid"; "booking"]
    [("bookingid", Schema [TInteger] [] [] true None);
     ("booking", BOOKING_SCHEMA)]
    false None.

Definition BOOKING_ID_SCHEMA : schema :=
  Schema [TObject]
    ["bookingid"]
    [("bookingid", Schema [TInteger] [] [] true None)]
    false None.

Definition BOOKING_IDS_LIST_SCHEMA : schema :=
  Schema [TArray] [] [] true (Some BOOKING_ID_SCHEMA).

Definition AUTH_RESPONSE_SCHEMA : schema :=
  Schema [TObject]
    ["token"]
    [("token", Schema [TString] [] [] true None)]
    false None.

Definition AUTH_ERROR_SCHEMA : schema :=
  Schema [TObject]
    ["reason"]
    [("reason", Schema [TString] [] [] true None)]
    false None.

(** [float.is_integer()] *)
Definition float_is_integer (f : spec_float) : bool :=
  match f with
  | S754_zero _ => true
  | S754_finite _ m e =>
      if 0 <=? e then true else Z.pos m mod 2 ^ (- e) =? 0
  | _ => false
  end.

(** The type checker of JSON Schema: a [bool] is not a number, and a
    float without fractional part is an integer. *)
Definition has_type (t : jtype) (v : json) : bool :=
  match t, v with
  | TNull, JNull => true
  | TBoolean, JBool _ => true
  | TInteger, JInt _ => true
  | TInteger, JFloat f => float_is_integer f
  | TNumber, JInt _ => true
  | TNumber, JFloat _ => true
  | TString, JStr _ => true
  | TArray, JArr _ => true
  | TObject, JObj _ => true
  | _, _ => false
  end.

Fixpoint is_valid (s : schema) (instance : json) {struct s} : bool :=
  let 'Schema types required properties additional items := s in
  existsb (λ t, has_type t instance) types &&
  match instance with
  | JObj m =>
      forallb (λ k, bool_decide (is_Some (m !! k))) required
      && (fix properties_ok (ps : list (string * schema)) : bool :=
            match ps with
            | [] => true
            | (k, sub) :: ps' =>
                match m !! k with
                | Some x => is_valid sub x
                | None => true
                end && properties_ok ps'
            end) properties
      && (additional
          || bool_decide (dom m ⊆ (list_to_set properties.*1 : gset string)))
  | JArr l =>
      match items with
      | Some sub => forallb (is_valid sub) l
      | None => true
      end
  | _ => true
  end.

(** [jsonschema.validate(instance=..., schema=...)] *)
Definition validate (instance : json) (s : schema) : result unit :=
  if is_valid s instance then Ok tt else Raise ValidationError.

(** ** [src/models.py] *)

(** The pydantic models, on inputs whose fields already have the
    annotated Python types: constructing a model then checks the [Field]
    constraints and nothing else. *)
Module Models.

Record BookingDates : Type := {
  checkin : string;
  checkout : string;
}.

Record Booking : Type := {
  firstname : string;
  lastname : string;
  totalprice : Z;
  depositpaid : bool;
  bookingdates : BookingDates;
  additionalneeds : option string;
}.

(** [Field(..., min_length=1)]: the string has at least one character
    (for the bound 1, bytes and characters agree). *)
Definition min_length_1 (s : string) : bool := (1 <=? String.length s)%nat.

(** [Field(..., ge=0)] *)
Definition ge_0 (n : Z) : bool := 0 <=? n.

(** [Booking(firstname=..., ..., additionalneeds=...)] *)
Definition Booking_init (firstname lastname : string) (totalprice : Z)
    (depositpaid : bool) (bookingdates : BookingDates)
    (additionalneeds : option string) : result Booking :=
  if min_length_1 firstname && min_length_1 lastname && ge_0 totalprice
  then Ok {| firstname := firstname; lastname := lastname;
             totalprice := totalprice; depositpaid := depositpaid;
             bookingdates := bookingdates;
             additionalneeds := additionalneeds |}
  else Raise ValidationError.

(** The dictionary with the same fields, as sent to and received from the
    API; [additionalneeds] is either absent ([None]), [null]
    ([Some None]) or a string. *)
Definition dates_payload (d : BookingDates) : json :=
  JObj (list_to_map [("checkin", JStr (checkin d));
                     ("checkout", JStr (checkout d))]).

Definition payload (firstname lastname : string) (totalprice : Z)
    (depositpaid : bool) (bookingdates : BookingDates)
    (additionalneeds : option (option string)) : json :=
  let base : gmap string json :=
    list_to_map [("firstname", JStr firstname);
                 ("lastname", JStr lastname);
                 ("totalprice", JInt totalprice);
                 ("depositpaid", JBool depositpaid);
                 ("bookingdates", dates_payload bookingdates)] in
  JObj match additionalneeds with
       | None => base
       | Some None => <["additionalneeds" := JNull]> base
       | Some (Some s) => <["additionalneeds" := JStr s]> base
       end.

End Models.

(** ** [tests/conftest.py] *)

(** A generator fixture is the code before its [yield] (which produces the
    yielded value and the generator's local variables) and the code after
    it, which pytest runs once the test has finished, whatever its outcome. *)
Record report : Type := {
  setup_outcome : result unit;
  call_outcome : option (result unit);
  teardown_outcome : option (result unit);
}.

(** A test body receives the yielded value; through aliasing it may also
    change mutable objects the generator still refers to, so it returns
    their final contents next to its own outcome. *)
Definition test_body `{Network} (A L : Type) : Type :=
  A → L → state → result unit * L * state.

Definition run_test `{Network} {A L} (setup : M (A * L))
    (teardown : L → M unit) (test : test_body A L) : state → report * state :=
  λ s,
    match setup s with
    | (Raise e, s1) =>
        ({| setup_outcome := Raise e; call_outcome := None;
            teardown_outcome := None |}, s1)
    | (Ok (a, locals), s1) =>
        let '(rc, locals', s2) := test a locals s1 in
        let '(rt, s3) := teardown locals' s2 in
        ({| setup_outcome := Ok tt; call_outcome := Some rc;
            teardown_outcome := Some rt |}, s3)
    end.

Section Fixtures.
Context `{Environment} `{Network}.

(** [assert cond] *)
Definition assert (cond : bool) : M unit :=
  if cond then ret tt else raise AssertionError.

(** [for x in l: body(x)] *)
Fixpoint for_each {A} (l : list A) (body : A → M unit) : M unit :=
  match l with
  | [] => ret tt
  | x :: l' => body x ;;; for_each l' body
  end.

(** [authenticated_client]: a new client, authenticated. *)
Definition authenticated_client : M unit :=
  init ;;;
  authenticate ;;;
  ret tt.

(** [created_booking], up to the [yield]: the yielded dictionary and the
    local [data]. *)
Definition created_booking_setup (valid_booking_data : json)
    : M (json * json) :=
  response <- create_booking valid_booking_data ;;
  assert (status_code response =? 200) ;;;
  data <- lift (response_json response) ;;
  bookingid <- lift (py_getitem data "bookingid") ;;
  booking <- lift (py_getitem data "booking") ;;
  ret (JObj (list_to_map [("bookingid", bookingid); ("booking", booking)]),
       data).

(** [created_booking], after the [yield]. *)
Definition created_booking_teardown (data : json) : M unit :=
  try_except
    (bookingid <- lift (py_getitem data "bookingid") ;;
     delete_booking bookingid None ;;;
     ret tt)
    (λ _, ret tt).

(** The payload [multiple_bookings] builds for index [i]. *)
Definition multiple_bookings_data (i : Z) : json :=
  JObj (list_to_map [
    ("firstname", JStr ("Test" +:+ pretty i));
    ("lastname", JStr ("User" +:+ pretty i));
    ("totalprice", JInt (100 + i * 50));
    ("depositpaid", JBool (i mod 2 =? 0));
    ("bookingdates",
      JObj (list_to_map [
        ("checkin", JStr ("2024-0" +:+ pretty (i + 1) +:+ "-01"));
        ("checkout", JStr ("2024-0" +:+ pretty (i + 1) +:+ "-10"))]))
  ]).

(** The creation loop of [multiple_bookings] over the indices [range_],
    appending to [booking_ids]. *)
Fixpoint multiple_bookings_create (range_ : list Z) (booking_ids : list json)
    : M (list json) :=
  match range_ with
  | [] => ret booking_ids
  | i :: range' =>
      response <- create_booking (multiple_bookings_data i) ;;
      booking_ids <-
        (if status_code response =? 200 then
           data <- lift (response_json response) ;;
           bookingid <- lift (py_getitem data "bookingid") ;;
           ret (booking_ids ++ [bookingid])
         else ret booking_ids) ;;
      multiple_bookings_create range' booking_ids
  end.

(** [multiple_bookings], up to the [yield]: the list [booking_ids] is both
    the yielded value and the generator's local. *)
Definition multiple_bookings_setup : M (list json * list json) :=
  booking_ids <- multiple_bookings_create [0; 1; 2] [] ;;
  ret (booking_ids, booking_ids).

(** [multiple_bookings], after the [yield]. *)
Definition multiple_bookings_teardown (booking_ids : list json) : M unit :=
  for_each booking_ids (λ booking_id,
    try_except
      (delete_booking booking_id None ;;;
       ret tt)
      (λ _, ret tt)).

End Fixtures.

(** ** Test doubles *)

(** An environment without overrides, and a session that replays a script
    of outcomes (and fails once the script is exhausted). *)
Definition plain_environment : Environment :=
  {| getenv := λ _, None; repr := λ _, "<repr>" |}.

Definition scripted_network : Network :=
  {| world := list (result response);
     send := λ _ script,
       match script with
       | [] => (Raise (RequestException "connection refused"), [])
       | r :: script' => (r, script')
       end |}.

(** Sample responses and the initial state used in the runs below. *)
Module Runs.

Definition dq : string := String (ascii_of_nat 34) "".

(** [200 {"token": "abc123"}] and [200 {"reason": "Bad credentials"}], the
    two answers of [/auth]; [403 Forbidden]; [201 Created]. *)
Definition token_response : response :=
  {| status_code := 200;
     text := "{" +:+ dq +:+ "token" +:+ dq +:+ ":" +:+ dq +:+ "abc123"
             +:+ dq +:+ "}";
     body := Some (JObj {["token" := JStr "abc123"]}) |}.

Definition bad_credentials_response : response :=
  {| status_code := 200;
     text := "{" +:+ dq +:+ "reason" +:+ dq +:+ ":" +:+ dq
             +:+ "Bad credentials" +:+ dq +:+ "}";
     body := Some (JObj {["reason" := JStr "Bad credentials"]}) |}.

Definition forbidden_response : response :=
  {| status_code := 403; text := "Forbidden"; body := None |}.

Definition created_response : response :=
  {| status_code := 201; text := "Created"; body := None |}.

(** A new client in front of a session that will give [script]. *)
Definition fresh (script : list (result response))
    : @state scripted_network :=
  @Build_state scripted_network JNull script [].

End Runs.

(** ** Vocabulary of the properties *)

Section Vocabulary.
Context `{Environment} `{Network}.

(** The state after a call that handed [rq] to the session, which moved
    to [w], and left the client's token alone. *)
Definition after_request (s : state) (rq : request) (w : world) : state :=
  {| token := token s; net := w; history := history s ++ [rq] |}.

(** [issues m s rq]: run in state [s], the method [m] hands exactly the
    request [rq] to the session, returns what the session answers (a
    response or an exception) and leaves the client's token as it was. *)
Definition issues (m : M response) (s : state) (rq : request) : Prop :=
  m s = ((send rq (net s)).1, after_request s rq (send rq (net s)).2).

(** [surfaces_non_2xx m]: whenever the session answers the request of [m]
    with a response whose status is outside 200..299, [m] returns that
    response. *)
Definition surfaces_non_2xx (m : M response) : Prop :=
  ∀ s, ∃ rq, ∀ r w,
    send rq (net s) = (Ok r, w) →
    ¬ (200 ≤ status_code r < 300) →
    m s = (Ok r, after_request s rq w).

(** The headers the three mutating methods choose. *)
Definition mutating_headers (use_token : option bool) (tok : json)
    : gmap string string :=
  if default true use_token && truthy tok
  then get_auth_header tok
  else get_basic_auth_header None None.

(** The request [create_token] posts. *)
Definition auth_request (username password : option string) : request :=
  {| req_method := POST; req_url := AUTH_ENDPOINT;
     req_kwargs :=
       {| kw_params := None;
          kw_json :=
            Some (JObj (list_to_map
              [("username", JStr (default DEFAULT_USERNAME username));
               ("password", JStr (default DEFAULT_PASSWORD password))]));
          kw_data := None; kw_headers := Some HEADERS |} |}.

(** The request the cleanup code of the fixtures sends for [booking_id]
    when the client's token is [tok]. *)
Definition cleanup_request (tok : json) (booking_id : json) : request :=
  {| req_method := DELETE; req_url := get_booking_url booking_id;
     req_kwargs :=
       {| kw_params := None; kw_json := None; kw_data := None;
          kw_headers := Some (mutating_headers None tok) |} |}.

End Vocabulary.

(** The ["token"] field of a response whose body is a JSON object. *)
Definition token_field (r : response) : option json :=
  match body r with
  | Some (JObj m) => m !! "token"
  | _ => None
  end.

(** The five schemas that describe JSON objects. *)
Definition response_schemas : list schema :=
  [BOOKING_SCHEMA; BOOKING_RESPONSE_SCHEMA; BOOKING_ID_SCHEMA;
   AUTH_RESPONSE_SCHEMA; AUTH_ERROR_SCHEMA].

(** [type_ok s v]: [v] has one of the types listed under ["type"] in [s]. *)
Definition type_ok (s : schema) (v : json) : bool :=
  existsb (λ t, has_type t v) (sch_type s).

Definition property_ok (m : gmap string json) (p : string * schema) : bool :=
  match m !! p.1 with
  | Some x => is_valid p.2 x
  | None => true
  end.

(** A payload is accepted by the client-side model and schema when the
    [Booking] model can be constructed from its fields and [BOOKING_SCHEMA]
    validates it. *)
Definition accepted_by_model_and_schema (firstname lastname : string)
    (totalprice : Z) (depositpaid : bool) (dates : Models.BookingDates)
    (additionalneeds : option (option string)) : Prop :=
  is_ok (Models.Booking_init firstname lastname totalprice depositpaid dates
           (mjoin additionalneeds)) = true
  ∧ is_valid BOOKING_SCHEMA
      (Models.payload firstname lastname totalprice depositpaid dates
         additionalneeds) = true.

(** ** Further vocabulary *)

Section MoreVocabulary.
Context `{Environment} `{Network}.

(** [passes_through m]: in every state, [m] hands one request to the
    session, returns the session's outcome (response or exception) as it
    is, and does not touch the client's token. *)
Definition passes_through (m : M response) : Prop :=
  ∀ s, ∃ rq,
    (m s).1 = (send rq (net s)).1
    ∧ net (m s).2 = (send rq (net s)).2
    ∧ token (m s).2 = token s
    ∧ history (m s).2 = history s ++ [rq].

End MoreVocabulary.

(** The request [create_booking] posts for [booking_data]. *)
Definition create_request `{Environment} (booking_data : json) : request :=
  {| req_method := POST; req_url := BOOKING_ENDPOINT;
     req_kwargs := {| kw_params := None; kw_json := Some booking_data;
                      kw_data := None; kw_headers := Some HEADERS |} |}.

(** A session that answers every request with the same response. *)
Definition constant_network (r : response) : Network :=
  {| world := unit; send := λ _ _, (Ok r, tt) |}.

(** The objects [BOOKING_DATES_SCHEMA] and [BOOKING_SCHEMA] describe. *)
Definition dates_shape (v : json) : Prop :=
  ∃ checkin checkout,
    v = JObj (<["checkin" := JStr checkin]> {["checkout" := JStr checkout]}).

Definition booking_shape (m : gmap string json) : Prop :=
  (∀ k, is_Some (m !! k) →
        k ∈ ["firstname"; "lastname"; "totalprice"; "depositpaid";
             "bookingdates"; "additionalneeds"])
  ∧ (∃ x, m !! "firstname" = Some (JStr x))
  ∧ (∃ x, m !! "lastname" = Some (JStr x))
  ∧ (∃ x, m !! "totalprice" = Some x ∧ has_type TInteger x = true)
  ∧ (∃ b, m !! "depositpaid" = Some (JBool b))
  ∧ (∃ d, m !! "bookingdates" = Some d ∧ dates_shape d)
  ∧ (m !! "additionalneeds" = None
     ∨ m !! "additionalneeds" = Some JNull
     ∨ ∃ x, m !! "additionalneeds" = Some (JStr x)).

(** Further sample responses: a 200 answer that is not JSON, and the answer
    of a successful [POST /booking]. *)
Module Samples.

Definition html_response : response :=
  {| status_code := 200; text := "<html>Service unavailable</html>";
     body := None |}.

Definition booking_body : json :=
  JObj (<["bookingid" := JInt 7]>
          {["booking" :=
              Models.payload "Jim" "Brown" 111 true
                {| Models.checkin := "2024-01-01";
                   Models.checkout := "2024-01-05" |}
                (Some (Some "Breakfast"))]}).

Definition booking_response : response :=
  {| status_code := 200; text := "{...}"; body := Some booking_body |}.

(** A client that already holds the token ["old"]. *)
Definition holding_old_token (script : list (result response))
    : @state scripted_network :=
  @Build_state scripted_network (JStr "old") script [].

End Samples.

(** * Properties *)

Example b64encode_default_credentials :
  b64encode "admin:password123" = "YWRtaW46cGFzc3dvcmQxMjM=".
Proof. reflexivity. Qed.

Example b64encode_padding :
  b64encode "" = "" ∧ b64encode "a" = "YQ==" ∧ b64encode "ab" = "YWI=" ∧
  b64encode "abc" = "YWJj".
Proof. repeat split; reflexivity. Qed.

Example b64encode_high_bytes :
  b64encode_bytes [255; 254; 253; 0]%N = "//79AA==".
Proof. reflexivity. Qed.

(** ** Headers *)

Lemma HEADERS_content_type : HEADERS !! "Content-Type" = Some "application/json".
Proof. reflexivity. Qed.

Lemma HEADERS_accept : HEADERS !! "Accept" = Some "application/json".
Proof. reflexivity. Qed.

Lemma HEADERS_no_cookie : HEADERS !! "Cookie" = None.
Proof. reflexivity. Qed.

Lemma HEADERS_no_authorization : HEADERS !! "Authorization" = None.
Proof. reflexivity. Qed.

Section HeaderProperties.
Context `{Environment}.

Lemma get_auth_header_cookie tok :
  get_auth_header tok !! "Cookie" = Some ("token=" +:+ format tok).
Proof. unfold get_auth_header. apply lookup_insert_eq. Qed.

Lemma get_auth_header_other tok k :
  k ≠ "Cookie" → get_auth_header tok !! k = HEADERS !! k.
Proof. intros Hk. unfold get_auth_header. by rewrite lookup_insert_ne. Qed.

Lemma get_auth_header_common tok : HEADERS ⊆ get_auth_header tok.
Proof.
  unfold get_auth_header. apply insert_subseteq, HEADERS_no_cookie.
Qed.

Lemma get_basic_auth_header_authorization u p :
  get_basic_auth_header u p !! "Authorization"
  = Some ("Basic " +:+ b64encode (default DEFAULT_USERNAME u +:+ ":"
                                  +:+ default DEFAULT_PASSWORD p)).
Proof. unfold get_basic_auth_header. apply lookup_insert_eq. Qed.

Lemma get_basic_auth_header_other u p k :
  k ≠ "Authorization" → get_basic_auth_header u p !! k = HEADERS !! k.
Proof.
  intros Hk. unfold get_basic_auth_header. by rewrite lookup_insert_ne.
Qed.

Lemma get_basic_auth_header_common u p : HEADERS ⊆ get_basic_auth_header u p.
Proof.
  unfold get_basic_auth_header.
  apply insert_subseteq, HEADERS_no_authorization.
Qed.

(** C6: [get_auth_header(t)] carries [Cookie: token=t] for every token
    string [t]; [get_basic_auth_header(u, p)] carries
    [Authorization: Basic base64(u:p)] for every username [u] and password
    [p]; both keep the two common JSON headers of [HEADERS]. *)
Theorem C6_auth_header_forms (t u p : string) :
  (get_auth_header (JStr t) !! "Cookie" = Some ("token=" +:+ t)
   ∧ get_auth_header (JStr t) !! "Content-Type" = Some "application/json"
   ∧ get_auth_header (JStr t) !! "Accept" = Some "application/json"
   ∧ HEADERS ⊆ get_auth_header (JStr t))
  ∧
  (get_basic_auth_header (Some u) (Some p) !! "Authorization"
     = Some ("Basic " +:+ b64encode (u +:+ ":" +:+ p))
   ∧ get_basic_auth_header (Some u) (Some p) !! "Content-Type"
     = Some "application/json"
   ∧ get_basic_auth_header (Some u) (Some p) !! "Accept"
     = Some "application/json"
   ∧ HEADERS ⊆ get_basic_auth_header (Some u) (Some p)).
Proof.
  split.
  - split; [apply get_auth_header_cookie|].
    rewrite !get_auth_header_other by done.
    auto using get_auth_header_common.
  - split; [exact (get_basic_auth_header_authorization (Some u) (Some p))|].
    rewrite !get_basic_auth_header_other by done.
    auto using get_basic_auth_header_common.
Qed.

End HeaderProperties.

(** ** The client *)

Section ClientProperties.
Context `{Environment} `{Network}.

Lemma session_request_issues m u kw s :
  issues (session_request m u kw) s
    {| req_method := m; req_url := u; req_kwargs := kw |}.
Proof.
  unfold issues, after_request, session_request. by destruct (send _ _).
Qed.

Lemma bind_get_token {A} (k : json → M A) s :
  (tok <- get_token ;; k tok) s = k (token s) s.
Proof. reflexivity. Qed.

Lemma update_booking_issues booking_id booking_data use_token s :
  issues (update_booking booking_id booking_data use_token) s
    {| req_method := PUT; req_url := get_booking_url booking_id;
       req_kwargs :=
         {| kw_params := None; kw_json := Some booking_data;
            kw_data := None;
            kw_headers := Some (mutating_headers use_token (token s)) |} |}.
Proof.
  unfold update_booking. unfold issues. rewrite bind_get_token.
  apply session_request_issues.
Qed.

Lemma partial_update_booking_issues booking_id booking_data use_token s :
  issues (partial_update_booking booking_id booking_data use_token) s
    {| req_method := PATCH; req_url := get_booking_url booking_id;
       req_kwargs :=
         {| kw_params := None; kw_json := Some booking_data;
            kw_data := None;
            kw_headers := Some (mutating_headers use_token (token s)) |} |}.
Proof.
  unfold partial_update_booking. unfold issues. rewrite bind_get_token.
  apply session_request_issues.
Qed.

Lemma delete_booking_issues booking_id use_token s :
  issues (delete_booking booking_id use_token) s
    {| req_method := DELETE; req_url := get_booking_url booking_id;
       req_kwargs :=
         {| kw_params := None; kw_json := None; kw_data := None;
            kw_headers := Some (mutating_headers use_token (token s)) |} |}.
Proof.
  unfold delete_booking. unfold issues. rewrite bind_get_token.
  apply session_request_issues.
Qed.

Lemma mutating_headers_token use_token tok :
  default true use_token = true → truthy tok = true →
  mutating_headers use_token tok = get_auth_header tok.
Proof. unfold mutating_headers. by intros -> ->. Qed.

Lemma mutating_headers_basic use_token tok :
  default true use_token = false ∨ truthy tok = false →
  mutating_headers use_token tok = get_basic_auth_header None None.
Proof.
  unfold mutating_headers. intros [-> | ->]; [done|].
  by rewrite andb_false_r.
Qed.

(** C2: each of [update_booking], [partial_update_booking] and
    [delete_booking] hands one request to the session whose headers are
    the cookie headers [Cookie: token={token}] when [use_token] is true and
    the client holds a token ([self.token] is set and not empty), and are
    otherwise the basic-auth headers built from the default credentials. *)
Theorem C2_mutating_calls_auth_selection
    (booking_id booking_data : json) (use_token : option bool) (s : state) :
  ∃ headers : gmap string string,
    issues (update_booking booking_id booking_data use_token) s
      {| req_method := PUT; req_url := get_booking_url booking_id;
         req_kwargs := {| kw_params := None; kw_json := Some booking_data;
                          kw_data := None; kw_headers := Some headers |} |}
    ∧ issues (partial_update_booking booking_id booking_data use_token) s
      {| req_method := PATCH; req_url := get_booking_url booking_id;
         req_kwargs := {| kw_params := None; kw_json := Some booking_data;
                          kw_data := None; kw_headers := Some headers |} |}
    ∧ issues (delete_booking booking_id use_token) s
      {| req_method := DELETE; req_url := get_booking_url booking_id;
         req_kwargs := {| kw_params := None; kw_json := None;
                          kw_data := None; kw_headers := Some headers |} |}
    ∧ (default true use_token = true ∧ truthy (token s) = true →
         headers = get_auth_header (token s)
         ∧ headers !! "Cookie" = Some ("token=" +:+ format (token s))
         ∧ headers !! "Authorization" = None)
    ∧ (¬ (default true use_token = true ∧ truthy (token s) = true) →
         headers = get_basic_auth_header None None
         ∧ headers !! "Authorization"
           = Some ("Basic " +:+ b64encode (DEFAULT_USERNAME +:+ ":"
                                           +:+ DEFAULT_PASSWORD))
         ∧ headers !! "Cookie" = None).
Proof.
  exists (mutating_headers use_token (token s)).
  split; [apply update_booking_issues|].
  split; [apply partial_update_booking_issues|].
  split; [apply delete_booking_issues|].
  split.
  - intros [Hu Ht]. rewrite mutating_headers_token by done.
    split; [done|]. split; [apply get_auth_header_cookie|].
    by rewrite get_auth_header_other.
  - intros Hn. rewrite mutating_headers_basic.
    + split; [done|].
      split; [exact (get_basic_auth_header_authorization None None)|].
      by rewrite get_basic_auth_header_other.
    + destruct (default true use_token); [|by left].
      destruct (truthy (token s)); [|by right].
      by destruct Hn.
Qed.

(** C10: [get_booking] sends an [Accept] header equal to its [accept]
    argument, or to ["application/json"] when the argument is not
    supplied, and a [Content-Type] header equal to ["application/json"];
    the request carries no other header. *)
Theorem C10_get_booking_accept_header
    (booking_id : json) (accept : option string) (s : state) :
  ∃ headers : gmap string string,
    issues (get_booking booking_id accept) s
      {| req_method := GET; req_url := get_booking_url booking_id;
         req_kwargs := {| kw_params := None; kw_json := None;
                          kw_data := None; kw_headers := Some headers |} |}
    ∧ headers !! "Accept" = Some (default "application/json" accept)
    ∧ headers !! "Content-Type" = Some "application/json"
    ∧ dom headers = {["Accept"; "Content-Type"]}.
Proof.
  exists (<["Accept" := default "application/json" accept]> HEADERS).
  split; [apply session_request_issues|].
  split; [apply lookup_insert_eq|].
  split; [by rewrite lookup_insert_ne|].
  rewrite dom_insert_L. unfold HEADERS.
  cbn [list_to_map foldr uncurry fst snd].
  rewrite !dom_insert_L, dom_empty_L. set_solver.
Qed.

(** *** Query parameters of [get_booking_ids] *)

Lemma set_if_truthy_ne k v params k' :
  k' ≠ k → set_if_truthy k v params !! k' = params !! k'.
Proof.
  intros Hk. unfold set_if_truthy. destruct v as [y|]; [|done].
  destruct (truthy (JStr y)); [|done]. by rewrite lookup_insert_ne.
Qed.

Lemma set_if_truthy_eq k v params x :
  params !! k = None →
  set_if_truthy k v params !! k = Some x ↔ v = Some x ∧ x ≠ "".
Proof.
  intros Hnone. unfold set_if_truthy. destruct v as [y|].
  - cbn [truthy]. destruct (String.eqb_spec y "") as [->|Hy]; cbn [negb].
    + rewrite Hnone. split; [done|]. intros [[= <-] Hx]. by destruct Hx.
    + rewrite lookup_insert_eq. split.
      * intros [= <-]. done.
      * intros [[= <-] _]. done.
  - rewrite Hnone. split; [done|]. by intros [? _].
Qed.

Lemma set_if_truthy_is_Some k v params k' :
  is_Some (set_if_truthy k v params !! k') →
  k' = k ∨ is_Some (params !! k').
Proof.
  destruct (decide (k' = k)) as [->|Hk]; [by left|].
  rewrite set_if_truthy_ne by done. by right.
Qed.

(** The [params] dictionary [get_booking_ids] builds. *)
Lemma get_booking_ids_issues firstname lastname checkin checkout s :
  issues (get_booking_ids firstname lastname checkin checkout) s
    {| req_method := GET; req_url := BOOKING_ENDPOINT;
       req_kwargs :=
         {| kw_params :=
              Some (set_if_truthy "checkout" checkout
                      (set_if_truthy "checkin" checkin
                         (set_if_truthy "lastname" lastname
                            (set_if_truthy "firstname" firstname ∅))));
            kw_json := None; kw_data := None;
            kw_headers := Some HEADERS |} |}.
Proof. apply session_request_issues. Qed.

(** C5: the query parameters [get_booking_ids] passes to the session
    contain a filter exactly when it was supplied as a non-empty string,
    with the supplied value, and contain nothing else. *)
Theorem C5_get_booking_ids_params
    (firstname lastname checkin checkout : option string) (s : state) :
  ∃ params : gmap string string,
    issues (get_booking_ids firstname lastname checkin checkout) s
      {| req_method := GET; req_url := BOOKING_ENDPOINT;
         req_kwargs := {| kw_params := Some params; kw_json := None;
                          kw_data := None; kw_headers := Some HEADERS |} |}
    ∧ (∀ v, params !! "firstname" = Some v ↔ firstname = Some v ∧ v ≠ "")
    ∧ (∀ v, params !! "lastname" = Some v ↔ lastname = Some v ∧ v ≠ "")
    ∧ (∀ v, params !! "checkin" = Some v ↔ checkin = Some v ∧ v ≠ "")
    ∧ (∀ v, params !! "checkout" = Some v ↔ checkout = Some v ∧ v ≠ "")
    ∧ (∀ k, is_Some (params !! k) →
            k = "firstname" ∨ k = "lastname" ∨ k = "checkin"
            ∨ k = "checkout").
Proof.
  eexists. split; [apply get_booking_ids_issues|].
  split; [|split; [|split; [|split]]].
  - intros v. rewrite !set_if_truthy_ne by done.
    by apply set_if_truthy_eq.
  - intros v. rewrite !set_if_truthy_ne by done.
    apply set_if_truthy_eq. by rewrite set_if_truthy_ne.
  - intros v. rewrite !set_if_truthy_ne by done.
    apply set_if_truthy_eq. by rewrite !set_if_truthy_ne.
  - intros v. apply set_if_truthy_eq. by rewrite !set_if_truthy_ne.
  - intros k Hk.
    apply set_if_truthy_is_Some in Hk as [->|Hk]; [by auto|].
    apply set_if_truthy_is_Some in Hk as [->|Hk]; [by auto|].
    apply set_if_truthy_is_Some in Hk as [->|Hk]; [by auto|].
    apply set_if_truthy_is_Some in Hk as [->|Hk]; [by auto|].
    rewrite lookup_empty in Hk. by destruct Hk.
Qed.

(** *** [create_token] and [authenticate] *)

Lemma create_token_unfold username password s :
  create_token username password s =
  match send (auth_request username password) (net s) with
  | (Raise e, w) =>
      (Raise e, after_request s (auth_request username password) w)
  | (Ok r, w) =>
      let s1 := after_request s (auth_request username password) w in
      if status_code r =? 200 then
        match response_json r with
        | Raise e => (Raise e, s1)
        | Ok data =>
            match py_in "token" data with
            | Raise e => (Raise e, s1)
            | Ok false => (Ok r, s1)
            | Ok true =>
                match py_getitem data "token" with
                | Raise e => (Raise e, s1)
                | Ok v =>
                    (Ok r, {| token := v; net := w;
                              history := history s
                                         ++ [auth_request username password]
                           |})
                end
            end
        end
      else (Ok r, s1)
  end.
Proof.
  unfold create_token, bind, session_request, auth_request, after_request.
  destruct (send _ (net s)) as [[r|e] w]; [|done].
  destruct (status_code r =? 200); [|done].
  unfold when, lift, bind, ret. cbn [token net history].
  destruct (response_json r) as [data|e]; [|done].
  destruct (py_in "token" data) as [[|]|e]; [|done|done].
  by destruct (py_getitem data "token").
Qed.

Lemma create_token_raises username password s e w :
  send (auth_request username password) (net s) = (Raise e, w) →
  create_token username password s
  = (Raise e, after_request s (auth_request username password) w).
Proof. intros Hs. by rewrite create_token_unfold, Hs. Qed.

Lemma create_token_not_200 username password s r w :
  send (auth_request username password) (net s) = (Ok r, w) →
  status_code r ≠ 200 →
  create_token username password s
  = (Ok r, after_request s (auth_request username password) w).
Proof.
  intros Hs Hc. rewrite create_token_unfold, Hs.
  by apply Z.eqb_neq in Hc as ->.
Qed.

Lemma create_token_stores username password s r w v :
  send (auth_request username password) (net s) = (Ok r, w) →
  status_code r = 200 → token_field r = Some v →
  create_token username password s
  = (Ok r, {| token := v; net := w;
              history := history s ++ [auth_request username password] |}).
Proof.
  intros Hs Hc Hf. rewrite create_token_unfold, Hs, Hc. cbn [Z.eqb Pos.eqb].
  unfold token_field in Hf. unfold response_json.
  destruct (body r) as [[| | | | | |m]|]; try done.
  cbn [py_in py_getitem]. rewrite Hf.
  rewrite bool_decide_eq_true_2 by eauto. done.
Qed.

Lemma py_in_getitem_token_field r data :
  response_json r = Ok data → py_in "token" data = Ok true →
  token_field r = None → ∃ e, py_getitem data "token" = Raise e.
Proof.
  unfold response_json, token_field.
  destruct (body r) as [b|]; [|done]. intros [= ->] Hin Hf.
  destruct data; cbn [py_getitem]; eauto.
  rewrite Hf. eauto.
Qed.

Lemma create_token_keeps username password s r w :
  send (auth_request username password) (net s) = (Ok r, w) →
  status_code r ≠ 200 ∨ token_field r = None →
  (create_token username password s).2
  = after_request s (auth_request username password) w.
Proof.
  intros Hs [Hc|Hf].
  { by rewrite (create_token_not_200 _ _ _ _ _ Hs Hc). }
  rewrite create_token_unfold, Hs. cbn zeta.
  destruct (status_code r =? 200); [|done].
  destruct (response_json r) as [data|e] eqn:Hj; [|done].
  destruct (py_in "token" data) as [[|]|e] eqn:Hin; [|done|done].
  destruct (py_in_getitem_token_field _ _ Hj Hin Hf) as [e ->]. done.
Qed.

(** C1: when the session answers [create_token]'s request with a
    response [r], then: if [r] has status 200 and its JSON body has a
    ["token"] field, [create_token] returns [r] and the client's token
    becomes that field; in every other case the token is unchanged; and
    when the status is not 200, [create_token] returns [r] (it does not
    raise). *)
Theorem C1_create_token_stores_token_only_on_success
    (username password : option string) (s : state) (r : response)
    (w : world) :
  send (auth_request username password) (net s) = (Ok r, w) →
  (∀ v, status_code r = 200 → token_field r = Some v →
     create_token username password s
     = (Ok r, {| token := v; net := w;
                 history := history s ++ [auth_request username password]
              |}))
  ∧ (status_code r ≠ 200 ∨ token_field r = None →
     token (create_token username password s).2 = token s)
  ∧ (status_code r ≠ 200 →
     create_token username password s
     = (Ok r, {| token := token s; net := w;
                 history := history s ++ [auth_request username password]
              |})).
Proof.
  intros Hs. split; [|split].
  - intros v Hc Hf. by apply create_token_stores.
  - intros Hk. by rewrite (create_token_keeps _ _ _ _ _ Hs Hk).
  - intros Hc. by apply create_token_not_200.
Qed.

(** C9: a new client holds no token ([token] is [None]); a [create_token]
    call that does not succeed leaves it so; and on a client whose token is
    [None] the three mutating methods, called with the default [use_token],
    send the basic-auth headers built from the default credentials and no
    [Cookie] header. *)
Theorem C9_fresh_client_falls_back_to_basic_auth :
  (∀ s, ∃ s', init s = (Ok tt, s') ∧ token s' = JNull)
  ∧ (∀ username password s r w,
       token s = JNull →
       send (auth_request username password) (net s) = (Ok r, w) →
       status_code r ≠ 200 ∨ token_field r = None →
       token (create_token username password s).2 = JNull)
  ∧ ∀ (booking_id booking_data : json) (s : state),
      token s = JNull →
      let headers := get_basic_auth_header None None in
      issues (update_booking booking_id booking_data None) s
        {| req_method := PUT; req_url := get_booking_url booking_id;
           req_kwargs := {| kw_params := None; kw_json := Some booking_data;
                            kw_data := None; kw_headers := Some headers |} |}
      ∧ issues (partial_update_booking booking_id booking_data None) s
        {| req_method := PATCH; req_url := get_booking_url booking_id;
           req_kwargs := {| kw_params := None; kw_json := Some booking_data;
                            kw_data := None; kw_headers := Some headers |} |}
      ∧ issues (delete_booking booking_id None) s
        {| req_method := DELETE; req_url := get_booking_url booking_id;
           req_kwargs := {| kw_params := None; kw_json := None;
                            kw_data := None; kw_headers := Some headers |} |}
      ∧ headers !! "Authorization"
        = Some ("Basic " +:+ b64encode (DEFAULT_USERNAME +:+ ":"
                                        +:+ DEFAULT_PASSWORD))
      ∧ headers !! "Cookie" = None.
Proof.
  split; [|split].
  - intros s. eexists. split; [reflexivity|]. reflexivity.
  - intros username password s r w Htok Hs Hk.
    by rewrite (create_token_keeps _ _ _ _ _ Hs Hk).
  - intros booking_id booking_data s Htok headers.
    assert (Hh : mutating_headers None (token s) = headers).
    { apply mutating_headers_basic. right. by rewrite Htok. }
    rewrite <- Hh.
    split; [apply update_booking_issues|].
    split; [apply partial_update_booking_issues|].
    split; [apply delete_booking_issues|].
    rewrite Hh. unfold headers.
    split; [exact (get_basic_auth_header_authorization None None)|].
    by rewrite get_basic_auth_header_other.
Qed.

Lemma authenticate_unfold s :
  authenticate s =
  match create_token None None s with
  | (Raise e, s1) => (Raise e, s1)
  | (Ok r, s1) =>
      if (status_code r =? 200) && truthy (token s1)
      then (Ok (token s1), s1)
      else (Raise (Exception ("Authentication failed: " +:+ text r)), s1)
  end.
Proof.
  unfold authenticate, bind.
  destruct (create_token None None s) as [[r|e] s1]; [|done].
  unfold get_token.
  by destruct ((status_code r =? 200) && truthy (token s1)).
Qed.

Lemma issues_surfaces (m : M response) :
  (∀ s, ∃ rq, issues m s rq) → surfaces_non_2xx m.
Proof.
  intros Hm s. destruct (Hm s) as [rq Hrq]. exists rq.
  intros r w Hs _. unfold issues in Hrq. by rewrite Hrq, Hs.
Qed.

(** C3: [authenticate] raises exactly when its [create_token] call did
    not both return a response with status 200 and leave a token on the
    client ([self.token] set and not empty); when it returns, it returns
    the stored token; its effect on the state is that of [create_token].
    Every other method of the client returns the session's response when
    its status is not 2xx. *)
Theorem C3_only_authenticate_raises_on_failure :
  (∀ s,
     ((∃ e, (authenticate s).1 = Raise e) ↔
      ¬ (∃ r, (create_token None None s).1 = Ok r
              ∧ status_code r = 200
              ∧ truthy (token (create_token None None s).2) = true))
     ∧ (∀ t, (authenticate s).1 = Ok t →
             t = token (authenticate s).2 ∧ truthy t = true)
     ∧ (authenticate s).2 = (create_token None None s).2)
  ∧ (∀ username password, surfaces_non_2xx (create_token username password))
  ∧ surfaces_non_2xx health_check
  ∧ (∀ firstname lastname checkin checkout,
       surfaces_non_2xx (get_booking_ids firstname lastname checkin checkout))
  ∧ (∀ booking_id accept, surfaces_non_2xx (get_booking booking_id accept))
  ∧ (∀ booking_data, surfaces_non_2xx (create_booking booking_data))
  ∧ (∀ booking_id booking_data use_token,
       surfaces_non_2xx (update_booking booking_id booking_data use_token))
  ∧ (∀ booking_id booking_data use_token,
       surfaces_non_2xx
         (partial_update_booking booking_id booking_data use_token))
  ∧ (∀ booking_id use_token,
       surfaces_non_2xx (delete_booking booking_id use_token))
  ∧ (∀ url kw, surfaces_non_2xx (raw_get url kw))
  ∧ (∀ url kw, surfaces_non_2xx (raw_post url kw))
  ∧ (∀ url kw, surfaces_non_2xx (raw_put url kw))
  ∧ (∀ url kw, surfaces_non_2xx (raw_patch url kw))
  ∧ (∀ url kw, surfaces_non_2xx (raw_delete url kw)).
Proof.
  split.
  { intros s. rewrite authenticate_unfold.
    destruct (create_token None None s) as [[r|e] s1]; cbn [fst snd].
    - destruct (Z.eqb_spec (status_code r) 200) as [Hc|Hc];
        destruct (truthy (token s1)) eqn:Ht; cbn [andb fst snd].
      + split; [|split; [|done]].
        * split; [by intros [e ?]|]. intros Hn. destruct Hn. eauto.
        * by intros t [= <-].
      + split; [|split; [done|done]].
        split; [|by eauto]. intros _ (r' & [= <-] & _ & ?). done.
      + split; [|split; [done|done]].
        split; [|by eauto]. intros _ (r' & [= <-] & ? & _). done.
      + split; [|split; [done|done]].
        split; [|by eauto]. intros _ (r' & [= <-] & ? & _). done.
    - split; [|split; [done|done]].
      split; [|by eauto]. intros _ (r' & ? & _). done. }
  split.
  { intros username password s. exists (auth_request username password).
    intros r w Hs Hc. apply create_token_not_200; [done|]. lia. }
  repeat split; intros; apply issues_surfaces; intros s; eexists.
  - apply session_request_issues.
  - apply get_booking_ids_issues.
  - apply session_request_issues.
  - apply session_request_issues.
  - apply update_booking_issues.
  - apply partial_update_booking_issues.
  - apply delete_booking_issues.
  - apply session_request_issues.
  - apply session_request_issues.
  - apply session_request_issues.
  - apply session_request_issues.
  - apply session_request_issues.
Qed.

End ClientProperties.

(** ** Schemas *)

Lemma is_valid_JObj s m :
  is_valid s (JObj m)
  = type_ok s (JObj m)
    && (forallb (λ k, bool_decide (is_Some (m !! k))) (sch_required s)
        && forallb (property_ok m) (sch_properties s)
        && (sch_additionalProperties s
            || bool_decide (dom m ⊆ (list_to_set (sch_properties s).*1
                                      : gset string)))).
Proof.
  destruct s as [types required properties additional items].
  cbn [is_valid sch_type sch_required sch_properties sch_additionalProperties].
  unfold type_ok. cbn [sch_type]. do 3 f_equal.
  induction properties as [|[k sub] ps IH]; [done|].
  cbn [forallb]. unfold property_ok at 1. cbn [fst snd]. by rewrite IH.
Qed.

Lemma is_valid_type_ok s v : is_valid s v = true → type_ok s v = true.
Proof.
  destruct s as [types required properties additional items].
  cbn [is_valid]. unfold type_ok. cbn [sch_type].
  by intros [? _]%andb_true_iff.
Qed.

Lemma is_valid_JObj_true s m :
  is_valid s (JObj m) = true ↔
    type_ok s (JObj m) = true
    ∧ (∀ k, k ∈ sch_required s → is_Some (m !! k))
    ∧ (∀ k sub v, (k, sub) ∈ sch_properties s → m !! k = Some v →
                  is_valid sub v = true)
    ∧ (sch_additionalProperties s = false →
       ∀ k, is_Some (m !! k) → k ∈ (sch_properties s).*1).
Proof.
  rewrite is_valid_JObj, !andb_true_iff, !forallb_forall, orb_true_iff,
    bool_decide_eq_true.
  split.
  - intros (Ht & (Hr & Hp) & Ha). split; [done|]. split; [|split].
    + intros k Hk%list_elem_of_In. apply Hr in Hk.
      by apply bool_decide_eq_true in Hk.
    + intros k sub v Hin%list_elem_of_In Hv.
      specialize (Hp _ Hin). unfold property_ok in Hp. cbn [fst snd] in Hp.
      by rewrite Hv in Hp.
    + intros Hf k Hk. destruct Ha as [Ha|Ha]; [congruence|].
      apply elem_of_dom in Hk. apply Ha in Hk.
      by apply elem_of_list_to_set in Hk.
  - intros (Ht & Hr & Hp & Ha). split; [done|]. split; [split|].
    + intros k Hk%list_elem_of_In. apply bool_decide_eq_true. by apply Hr.
    + intros [k sub] Hin%list_elem_of_In. unfold property_ok. cbn [fst snd].
      destruct (m !! k) as [v|] eqn:Hv; [|done]. by eapply Hp.
    + destruct (sch_additionalProperties s); [by left|right].
      intros k Hk%elem_of_dom. apply elem_of_list_to_set. by apply Ha.
Qed.

Lemma response_schemas_closed s :
  s ∈ response_schemas →
  sch_type s = [TObject] ∧ sch_additionalProperties s = false.
Proof.
  unfold response_schemas. rewrite !elem_of_cons, elem_of_nil.
  intros [->|[->|[->|[->|[->|[]]]]]]; done.
Qed.

(** C7: for each of the five object schemas, a JSON object fails validation
    when it has a property outside the schema's [properties], when it lacks
    a [required] field, or when a field's value has none of the types the
    schema gives for it; and an object that has no other property, has every
    required field and whose fields are valid against their schemas is
    accepted. *)
Theorem C7_response_schemas_are_closed (s : schema) (m : gmap string json) :
  s ∈ response_schemas →
  ((∃ k, is_Some (m !! k) ∧ k ∉ (sch_properties s).*1) →
     is_valid s (JObj m) = false)
  ∧ ((∃ k, k ∈ sch_required s ∧ m !! k = None) →
     is_valid s (JObj m) = false)
  ∧ ((∃ k sub v, (k, sub) ∈ sch_properties s ∧ m !! k = Some v
                 ∧ type_ok sub v = false) →
     is_valid s (JObj m) = false)
  ∧ ((∀ k, is_Some (m !! k) → k ∈ (sch_properties s).*1) →
     (∀ k, k ∈ sch_required s → is_Some (m !! k)) →
     (∀ k sub v, (k, sub) ∈ sch_properties s → m !! k = Some v →
                 is_valid sub v = true) →
     is_valid s (JObj m) = true).
Proof.
  intros [Hty Hadd]%response_schemas_closed.
  split; [|split; [|split]].
  - intros (k & Hk & Hout). apply not_true_is_false.
    intros (_ & _ & _ & Ha)%is_valid_JObj_true. by apply Hout, Ha.
  - intros (k & Hk & Hnone). apply not_true_is_false.
    intros (_ & Hr & _)%is_valid_JObj_true.
    apply Hr in Hk. rewrite Hnone in Hk. by destruct Hk.
  - intros (k & sub & v & Hin & Hv & Hbad). apply not_true_is_false.
    intros (_ & _ & Hp & _)%is_valid_JObj_true.
    specialize (Hp _ _ _ Hin Hv). apply is_valid_type_ok in Hp. congruence.
  - intros Ha Hr Hp. apply is_valid_JObj_true.
    split; [|by auto]. unfold type_ok. by rewrite Hty.
Qed.

(** The list schema validates the elements of an array against
    [BOOKING_ID_SCHEMA]. *)
Lemma BOOKING_IDS_LIST_SCHEMA_valid l :
  is_valid BOOKING_IDS_LIST_SCHEMA (JArr l)
  = forallb (is_valid BOOKING_ID_SCHEMA) l.
Proof. reflexivity. Qed.

Example AUTH_RESPONSE_SCHEMA_examples :
  validate (JObj {["token" := JStr "abc123"]}) AUTH_RESPONSE_SCHEMA = Ok tt
  ∧ validate (JObj {["token" := JInt 5]}) AUTH_RESPONSE_SCHEMA
    = Raise ValidationError
  ∧ validate (JObj ∅) AUTH_RESPONSE_SCHEMA = Raise ValidationError
  ∧ validate (JObj (<["extra" := JNull]> {["token" := JStr "abc123"]}))
      AUTH_RESPONSE_SCHEMA = Raise ValidationError
  ∧ validate (JObj {["reason" := JStr "Bad credentials"]}) AUTH_ERROR_SCHEMA
    = Ok tt.
Proof. repeat split; vm_compute; reflexivity. Qed.

(** ** Models *)

Lemma BOOKING_SCHEMA_accepts_payload firstname lastname totalprice depositpaid
    dates additionalneeds :
  is_valid BOOKING_SCHEMA
    (Models.payload firstname lastname totalprice depositpaid dates
       additionalneeds) = true.
Proof. destruct additionalneeds as [[x|]|]; vm_compute; reflexivity. Qed.

Lemma min_length_1_spec s : Models.min_length_1 s = true ↔ s ≠ "".
Proof.
  unfold Models.min_length_1. destruct s; cbn; split; try done.
Qed.

Lemma Booking_init_ok firstname lastname totalprice depositpaid dates needs :
  is_ok (Models.Booking_init firstname lastname totalprice depositpaid dates
           needs) = true
  ↔ firstname ≠ "" ∧ lastname ≠ "" ∧ 0 ≤ totalprice.
Proof.
  unfold Models.Booking_init.
  rewrite <- !min_length_1_spec, <- (Z.leb_le 0 totalprice).
  fold (Models.ge_0 totalprice).
  destruct (Models.min_length_1 firstname), (Models.min_length_1 lastname),
    (Models.ge_0 totalprice); cbn; intuition congruence.
Qed.

(** C4, as stated, fails: the [Booking] model rejects a negative
    [totalprice] and an empty [firstname], although the other fields are
    well typed. *)
Lemma C4_model_rejects_negative_price_and_empty_name :
  ¬ accepted_by_model_and_schema "Jim" "Brown" (-1) true
      {| Models.checkin := "2024-01-01"; Models.checkout := "2024-01-05" |}
      (Some (Some "Breakfast"))
  ∧ ¬ accepted_by_model_and_schema "" "Brown" 111 true
      {| Models.checkin := "2024-01-01"; Models.checkout := "2024-01-05" |}
      None.
Proof. split; intros [Hmodel _]; vm_compute in Hmodel; discriminate. Qed.

(** C4, amended: [BOOKING_SCHEMA] accepts every payload whose fields are
    well typed, whatever the integer [totalprice] and the strings
    [firstname] and [lastname]; the [Booking] model accepts such a payload
    exactly when [firstname] and [lastname] are not empty and [totalprice]
    is not negative, and then holds the fields as given. *)
Theorem C4_schema_permissive_model_constrained
    (firstname lastname : string) (totalprice : Z) (depositpaid : bool)
    (dates : Models.BookingDates) (additionalneeds : option (option string)) :
  is_valid BOOKING_SCHEMA
    (Models.payload firstname lastname totalprice depositpaid dates
       additionalneeds) = true
  ∧ (is_ok (Models.Booking_init firstname lastname totalprice depositpaid
              dates (mjoin additionalneeds)) = true
     ↔ firstname ≠ "" ∧ lastname ≠ "" ∧ 0 ≤ totalprice)
  ∧ (accepted_by_model_and_schema firstname lastname totalprice depositpaid
       dates additionalneeds
     ↔ firstname ≠ "" ∧ lastname ≠ "" ∧ 0 ≤ totalprice)
  ∧ (∀ b, Models.Booking_init firstname lastname totalprice depositpaid
            dates (mjoin additionalneeds) = Ok b →
          b = {| Models.firstname := firstname; Models.lastname := lastname;
                 Models.totalprice := totalprice;
                 Models.depositpaid := depositpaid;
                 Models.bookingdates := dates;
                 Models.additionalneeds := mjoin additionalneeds |}).
Proof.
  split; [apply BOOKING_SCHEMA_accepts_payload|].
  split; [apply Booking_init_ok|].
  split.
  - unfold accepted_by_model_and_schema. rewrite Booking_init_ok.
    pose proof (BOOKING_SCHEMA_accepts_payload firstname lastname totalprice
                  depositpaid dates additionalneeds).
    tauto.
  - unfold Models.Booking_init. intros b.
    destruct (_ && _); [|done]. by intros [= <-].
Qed.

(** ** Fixtures *)

Section FixtureProperties.
Context `{Environment} `{Network}.

Lemma try_except_pass (m : M unit) s :
  ∃ s', try_except m (λ _, ret tt) s = (Ok tt, s').
Proof.
  unfold try_except. destruct (m s) as [[[]|e] s']; eauto.
Qed.

Lemma created_booking_teardown_ok data s :
  ∃ s', created_booking_teardown data s = (Ok tt, s').
Proof. apply try_except_pass. Qed.

Lemma cleanup_step booking_id s :
  ∃ w, try_except (delete_booking booking_id None ;;; ret tt) (λ _, ret tt) s
       = (Ok tt, after_request s (cleanup_request (token s) booking_id) w).
Proof.
  unfold try_except, bind.
  rewrite (delete_booking_issues booking_id None s).
  fold (cleanup_request (token s) booking_id).
  destruct (send _ (net s)) as [[r|e] w]; cbn [fst snd]; by exists w.
Qed.

Lemma multiple_bookings_teardown_ok booking_ids s :
  ∃ s', multiple_bookings_teardown booking_ids s = (Ok tt, s')
        ∧ token s' = token s
        ∧ history s' = history s ++ (cleanup_request (token s) <$> booking_ids).
Proof.
  unfold multiple_bookings_teardown.
  revert s. induction booking_ids as [|booking_id ids IH]; intros s.
  - exists s. cbn. by rewrite app_nil_r.
  - cbn [for_each]. unfold bind at 1.
    destruct (cleanup_step booking_id s) as [w ->].
    destruct (IH (after_request s (cleanup_request (token s) booking_id) w))
      as (s' & -> & Htok & Hhist).
    exists s'. split; [done|]. split; [done|].
    rewrite Hhist. cbn [after_request token history fmap list_fmap].
    by rewrite <- app_assoc.
Qed.

(** C8: the cleanup code of [created_booking] and of [multiple_bookings]
    never raises, whatever the session does with the delete requests
    (including raising on each of them), whatever state the test left and
    whatever the test's own outcome; in [multiple_bookings] a delete that
    raises does not stop the deletes that follow. *)
Theorem C8_fixture_cleanup_never_raises :
  (∀ data s, ∃ s', created_booking_teardown data s = (Ok tt, s'))
  ∧ (∀ booking_ids s, ∃ s',
       multiple_bookings_teardown booking_ids s = (Ok tt, s')
       ∧ history s'
         = history s ++ (cleanup_request (token s) <$> booking_ids))
  ∧ (∀ valid_booking_data (test : test_body json json) s e,
       teardown_outcome
         (run_test (created_booking_setup valid_booking_data)
            created_booking_teardown test s).1 ≠ Some (Raise e))
  ∧ (∀ (test : test_body (list json) (list json)) s e,
       teardown_outcome
         (run_test multiple_bookings_setup multiple_bookings_teardown
            test s).1 ≠ Some (Raise e)).
Proof.
  split; [apply created_booking_teardown_ok|].
  split.
  { intros ids s. destruct (multiple_bookings_teardown_ok ids s)
      as (s' & ? & ? & ?). eauto. }
  split.
  - intros vbd test s e. unfold run_test.
    destruct (created_booking_setup vbd s) as [[[a locals]|e0] s1];
      [|done].
    destruct (test a locals s1) as [[rc locals'] s2].
    destruct (created_booking_teardown_ok locals' s2) as [s3 ->]. done.
  - intros test s e. unfold run_test.
    destruct (multiple_bookings_setup s) as [[[a locals]|e0] s1]; [|done].
    destruct (test a locals s1) as [[rc locals'] s2].
    destruct (multiple_bookings_teardown_ok locals' s2) as (s3 & -> & _).
    done.
Qed.

End FixtureProperties.

(** ** Runs against the scripted session *)

Example create_token_run :
  let '(r, s) :=
    @create_token plain_environment scripted_network None None
      (Runs.fresh [Ok Runs.token_response]) in
  r = Ok Runs.token_response ∧ token s = JStr "abc123"
  ∧ (kw_json ∘ req_kwargs <$> history s
     = [Some (JObj (<["username" := JStr "admin"]>
                      {["password" := JStr "password123"]}))]).
Proof. vm_compute. repeat split; reflexivity. Qed.

Example authenticate_bad_credentials_run :
  (@authenticate plain_environment scripted_network
     (Runs.fresh [Ok Runs.bad_credentials_response])).1
  = Raise (Exception ("Authentication failed: "
                      +:+ text Runs.bad_credentials_response)).
Proof. vm_compute. reflexivity. Qed.

Example delete_after_authenticate_run :
  let m :=
    @bind scripted_network _ _
      (@authenticate plain_environment scripted_network)
      (λ _, @delete_booking plain_environment scripted_network (JInt 7) None)
  in
  let '(r, s) := m (Runs.fresh [Ok Runs.token_response;
                                Ok Runs.created_response]) in
  r = Ok Runs.created_response
  ∧ (req_url <$> history s
     = ["https://restful-booker.herokuapp.com/auth";
        "https://restful-booker.herokuapp.com/booking/7"])
  ∧ ((λ rq, kw_headers (req_kwargs rq) ≫= (.!! "Cookie")) <$> history s
     = [None; Some "token=abc123"]).
Proof. vm_compute. repeat split; reflexivity. Qed.

Example delete_without_token_run :
  let '(r, s) :=
    @delete_booking plain_environment scripted_network (JInt 7) None
      (Runs.fresh [Ok Runs.forbidden_response]) in
  r = Ok Runs.forbidden_response
  ∧ ((λ rq, kw_headers (req_kwargs rq) ≫= (.!! "Authorization"))
       <$> history s
     = [Some "Basic YWRtaW46cGFzc3dvcmQxMjM="]).
Proof. vm_compute. repeat split; reflexivity. Qed.

Example get_booking_ids_run :
  let '(_, s) :=
    @get_booking_ids plain_environment scripted_network
      (Some "Jim") (Some "") None (Some "2024-12-31")
      (Runs.fresh [Ok Runs.forbidden_response]) in
  kw_params ∘ req_kwargs <$> history s
  = [Some (<["firstname" := "Jim"]> {["checkout" := "2024-12-31"]})].
Proof. vm_compute. reflexivity. Qed.

Example multiple_bookings_cleanup_run :
  let '(r, s) :=
    @multiple_bookings_teardown plain_environment scripted_network
      [JInt 1; JInt 2; JInt 3]
      (Runs.fresh [Raise (RequestException "timeout");
                   Ok Runs.forbidden_response]) in
  r = Ok tt
  ∧ (req_url <$> history s
     = ["https://restful-booker.herokuapp.com/booking/1";
        "https://restful-booker.herokuapp.com/booking/2";
        "https://restful-booker.herokuapp.com/booking/3"]).
Proof. vm_compute. repeat split; reflexivity. Qed.

(** ** Instances of the conditional properties *)

Lemma C1_create_token_witness :
  @send scripted_network
    (@auth_request plain_environment None None)
    (net (Runs.fresh [Ok Runs.token_response]))
  = (Ok Runs.token_response, [])
  ∧ @create_token plain_environment scripted_network None None
      (Runs.fresh [Ok Runs.token_response])
    = (Ok Runs.token_response,
       @Build_state scripted_network (JStr "abc123") []
         [@auth_request plain_environment None None]).
Proof.
  split; [reflexivity|].
  apply (@C1_create_token_stores_token_only_on_success
           plain_environment scripted_network None None
           (Runs.fresh [Ok Runs.token_response]) Runs.token_response []
           eq_refl);
    reflexivity.
Defined.

Lemma C7_response_schemas_witness :
  AUTH_RESPONSE_SCHEMA ∈ response_schemas
  ∧ is_valid AUTH_RESPONSE_SCHEMA (JObj {["token" := JInt 5]}) = false.
Proof.
  assert (Hin : AUTH_RESPONSE_SCHEMA ∈ response_schemas)
    by (unfold response_schemas; repeat constructor).
  split; [exact Hin|].
  apply (C7_response_schemas_are_closed AUTH_RESPONSE_SCHEMA
           {["token" := JInt 5]} Hin).
  exists "token", (Schema [TString] [] [] true None), (JInt 5).
  split; [by constructor|]. split; reflexivity.
Defined.

(** * Further properties *)

(** ** Base64 and the auth headers *)

Lemma string_get_lookup s n :
  String.get n s = list_ascii_of_string s !! n.
Proof.
  revert n. induction s as [|c s IH]; intros [|n]; cbn; auto.
Qed.

Lemma b64_alphabet_NoDup : NoDup (list_ascii_of_string b64_alphabet).
Proof. apply (bool_decide_unpack _). by vm_compute. Qed.

Lemma b64_alphabet_no_pad : "="%char ∉ list_ascii_of_string b64_alphabet.
Proof. apply (bool_decide_unpack _). by vm_compute. Qed.

Lemma b64_char_lookup n :
  (n < 64)%N →
  list_ascii_of_string b64_alphabet !! N.to_nat n = Some (b64_char n).
Proof.
  intros Hn. unfold b64_char. rewrite string_get_lookup.
  destruct (list_ascii_of_string b64_alphabet !! N.to_nat n) as [c|] eqn:Hc;
    [done|].
  apply lookup_ge_None in Hc. cbn in Hc. lia.
Qed.

Lemma b64_char_inj x y :
  (x < 64)%N → (y < 64)%N → b64_char x = b64_char y → x = y.
Proof.
  intros Hx Hy Heq.
  apply N2Nat.inj.
  eapply NoDup_lookup; [apply b64_alphabet_NoDup| |].
  - by apply b64_char_lookup.
  - rewrite Heq. by apply b64_char_lookup.
Qed.

Lemma b64_char_not_pad x : (x < 64)%N → b64_char x ≠ "="%char.
Proof.
  intros Hx Heq. apply b64_alphabet_no_pad.
  rewrite <- Heq. eapply list_elem_of_lookup_2, b64_char_lookup, Hx.
Qed.


Ltac split_byte x d :=
  let q := fresh "q" in
  let r := fresh "r" in
  pose proof (N.div_mod' x d);
  pose proof (N.mod_lt x d ltac:(lia));
  set (q := (x / d)%N) in *; set (r := (x mod d)%N) in *;
  clearbody q r.

Ltac byte_lia :=
  repeat match goal with
    | |- context [(?x / ?d)%N] => split_byte x d
    | |- context [(?x mod ?d)%N] => split_byte x d
    | H : context [(?x / ?d)%N] |- _ => split_byte x d
    | H : context [(?x mod ?d)%N] |- _ => split_byte x d
    end;
  lia.

Ltac sextets :=
  repeat match goal with
    | H : "="%char = b64_char _ |- _ => symmetry in H
    | H : b64_char ?x = "="%char |- _ =>
        exfalso; apply (b64_char_not_pad x); [byte_lia | exact H]
    | H : b64_char ?x = b64_char ?y |- _ =>
        apply b64_char_inj in H; [| byte_lia | byte_lia]
    end.

Lemma b64encode_bytes_inj l1 l2 :
  Forall (λ b, (b < 256)%N) l1 → Forall (λ b, (b < 256)%N) l2 →
  b64encode_bytes l1 = b64encode_bytes l2 → l1 = l2.
Proof.
  revert l2.
  induction l1 as [l1 IH] using (induction_ltof1 _ (@length N)).
  unfold ltof in IH.
  intros l2 H1 H2 Heq.
  destruct l1 as [|a [|b [|c l1]]], l2 as [|a' [|b' [|c' l2]]];
    cbn [b64encode_bytes] in Heq; try discriminate Heq; try done;
    repeat match goal with
      | H : Forall _ (_ :: _) |- _ => apply Forall_cons in H as [? H]
      end;
    inversion Heq; sextets.
  - f_equal; byte_lia.
  - f_equal; [|f_equal]; byte_lia.
  - assert (l1 = l2) as -> by (apply IH; [cbn; lia|done..]).
    f_equal; [|f_equal; [|f_equal]]; byte_lia.
Qed.

Lemma N_of_ascii_inj : Inj (=) (=) N_of_ascii.
Proof.
  intros a b Hab. by rewrite <- (ascii_N_embedding a), Hab, ascii_N_embedding.
Qed.

Lemma b64encode_inj s1 s2 : b64encode s1 = b64encode s2 → s1 = s2.
Proof.
  unfold b64encode. intros Heq.
  apply b64encode_bytes_inj in Heq.
  - apply (list_fmap_eq_inj _ N_of_ascii_inj) in Heq.
    rewrite <- (string_of_list_ascii_of_string s1),
      <- (string_of_list_ascii_of_string s2). by rewrite Heq.
  - apply Forall_fmap, Forall_forall. intros c _. apply N_ascii_bounded.
  - apply Forall_fmap, Forall_forall. intros c _. apply N_ascii_bounded.
Qed.

Lemma string_app_assoc (a b c : string) : (a +:+ b) +:+ c = a +:+ (b +:+ c).
Proof.
  induction a as [|x a IH]; [reflexivity|].
  change (String x ((a +:+ b) +:+ c) = String x (a +:+ (b +:+ c))).
  by rewrite IH.
Qed.

Lemma string_app_length (a b : string) :
  String.length (a +:+ b) = (String.length a + String.length b)%nat.
Proof.
  induction a as [|x a IH]; [reflexivity|].
  change (S (String.length (a +:+ b))
          = S (String.length a + String.length b)).
  by rewrite IH.
Qed.

Section MoreHeaderProperties.
Context `{Environment}.

(** X5: two calls of [get_basic_auth_header] give the same headers exactly
    when the strings [username:password] are equal, so the header determines
    that string; it does not determine the pair, since a colon in the
    username moves to the password unnoticed. *)
Theorem X5_basic_auth_header_determines_credentials (u p u' p' : string) :
  (get_basic_auth_header (Some u) (Some p)
   = get_basic_auth_header (Some u') (Some p')
   ↔ u +:+ ":" +:+ p = u' +:+ ":" +:+ p')
  ∧ get_basic_auth_header (Some (u +:+ ":" +:+ p)) (Some p')
    = get_basic_auth_header (Some u) (Some (p +:+ ":" +:+ p')).
Proof.
  split; [split|].
  - intros Heq.
    assert (Hl := f_equal (.!! "Authorization") Heq). cbn beta in Hl.
    rewrite !get_basic_auth_header_authorization in Hl. cbn [default] in Hl.
    injection Hl as Hl. by apply b64encode_inj.
  - intros Heq. unfold get_basic_auth_header. cbv zeta.
    cbn [from_option id]. by rewrite Heq.
  - unfold get_basic_auth_header. cbv zeta. cbn [from_option id].
    by rewrite !string_app_assoc.
Qed.
End MoreHeaderProperties.

(** ** More on the client *)


Section MoreClientProperties.
Context `{Environment} `{Network}.

Lemma issues_passes_through (m : M response) :
  (∀ s, ∃ rq, issues m s rq) → passes_through m.
Proof.
  intros Hm s. destruct (Hm s) as [rq Hrq]. exists rq.
  unfold issues in Hrq. rewrite Hrq. done.
Qed.

Lemma create_token_history username password s :
  history (create_token username password s).2
  = history s ++ [auth_request username password].
Proof.
  rewrite create_token_unfold.
  destruct (send _ (net s)) as [[r|e] w]; [|done]. cbn zeta.
  destruct (status_code r =? 200); [|done].
  destruct (response_json r) as [data|e]; [|done].
  destruct (py_in "token" data) as [[|]|e]; [|done|done].
  by destruct (py_getitem data "token").
Qed.

Lemma authenticate_state s :
  (authenticate s).2 = (create_token None None s).2.
Proof.
  rewrite authenticate_unfold.
  destruct (create_token None None s) as [[r|e] s1]; [|done].
  by destruct (_ && _).
Qed.

(** X4: every method of the client other than [create_token] and
    [authenticate] hands exactly one request to the session, returns the
    session's outcome unchanged (an exception of the session propagates) and
    never changes the stored token; [create_token] and [authenticate] also
    send exactly one request, the one to [/auth], and [create_token] lets an
    exception of the session propagate with the token unchanged. *)
Theorem X4_client_methods_pass_through :
  passes_through health_check
  ∧ (∀ firstname lastname checkin checkout,
       passes_through (get_booking_ids firstname lastname checkin checkout))
  ∧ (∀ booking_id accept, passes_through (get_booking booking_id accept))
  ∧ (∀ booking_data, passes_through (create_booking booking_data))
  ∧ (∀ booking_id booking_data use_token,
       passes_through (update_booking booking_id booking_data use_token))
  ∧ (∀ booking_id booking_data use_token,
       passes_through
         (partial_update_booking booking_id booking_data use_token))
  ∧ (∀ booking_id use_token,
       passes_through (delete_booking booking_id use_token))
  ∧ (∀ url kw, passes_through (raw_get url kw))
  ∧ (∀ url kw, passes_through (raw_post url kw))
  ∧ (∀ url kw, passes_through (raw_put url kw))
  ∧ (∀ url kw, passes_through (raw_patch url kw))
  ∧ (∀ url kw, passes_through (raw_delete url kw))
  ∧ (∀ username password s,
       history (create_token username password s).2
       = history s ++ [auth_request username password]
       ∧ ∀ e w, send (auth_request username password) (net s) = (Raise e, w) →
                create_token username password s
                = (Raise e, after_request s (auth_request username password) w))
  ∧ (∀ s, history (authenticate s).2 = history s ++ [auth_request None None]).
Proof.
  repeat split; intros; try (apply issues_passes_through; intros s0; eexists).
  - apply session_request_issues.
  - apply get_booking_ids_issues.
  - apply session_request_issues.
  - apply session_request_issues.
  - apply update_booking_issues.
  - apply partial_update_booking_issues.
  - apply delete_booking_issues.
  - apply session_request_issues.
  - apply session_request_issues.
  - apply session_request_issues.
  - apply session_request_issues.
  - apply session_request_issues.
  - apply create_token_history.
  - by apply create_token_raises.
  - by rewrite authenticate_state, create_token_history.
Qed.

(** X1: on a response with status 200, [create_token] raises
    [JSONDecodeError] when the body is not JSON and [TypeError] when the body
    is JSON [null], a boolean or a number, or an array or string that
    contains ["token"]; in all these cases the token is unchanged; a body
    that is a JSON object never makes it raise. *)
Theorem X1_create_token_raises_on_malformed_success
    (username password : option string) (s : state) (r : response)
    (w : world) :
  send (auth_request username password) (net s) = (Ok r, w) →
  status_code r = 200 →
  let s1 := after_request s (auth_request username password) w in
  (body r = None →
     create_token username password s = (Raise JSONDecodeError, s1))
  ∧ (∀ v, body r = Some v →
          v = JNull ∨ (∃ b, v = JBool b) ∨ (∃ n, v = JInt n)
          ∨ (∃ f, v = JFloat f) →
          create_token username password s = (Raise TypeError, s1))
  ∧ (∀ l, body r = Some (JArr l) →
          create_token username password s
          = (if existsb (str_eq_value "token") l
             then Raise TypeError else Ok r, s1))
  ∧ (∀ x, body r = Some (JStr x) →
          create_token username password s
          = (if substring_in "token" x then Raise TypeError else Ok r, s1))
  ∧ (∀ m, body r = Some (JObj m) →
          (create_token username password s).1 = Ok r).
Proof.
  intros Hs Hc s1. rewrite create_token_unfold, Hs, Hc. cbn [Z.eqb Pos.eqb].
  cbn zeta. fold s1. unfold response_json.
  split; [|split; [|split; [|split]]].
  - by intros ->.
  - intros v -> [->|[[b ->]|[[n ->]|[f ->]]]]; done.
  - intros l ->. cbn [py_in py_getitem].
    by destruct (existsb _ l).
  - intros x ->. cbn [py_in py_getitem].
    by destruct (substring_in _ x).
  - intros m ->. cbn [py_in py_getitem].
    destruct (m !! "token") as [v|] eqn:Hv.
    + by rewrite bool_decide_eq_true_2 by eauto.
    + rewrite bool_decide_eq_false_2; [done|]. by intros [? ?].
Qed.

(** X2: on a client that already holds a token, [authenticate] does not
    notice a rejected login: when [/auth] answers 200 with an object that has
    no ["token"] field, it returns the old token and raises nothing. *)
Theorem X2_authenticate_returns_stale_token
    (s : state) (r : response) (w : world) (m : gmap string json) :
  truthy (token s) = true →
  send (auth_request None None) (net s) = (Ok r, w) →
  status_code r = 200 →
  body r = Some (JObj m) →
  m !! "token" = None →
  authenticate s
  = (Ok (token s), after_request s (auth_request None None) w).
Proof.
  intros Ht Hs Hc Hb Hm. rewrite authenticate_unfold, create_token_unfold.
  rewrite Hs, Hc. cbn [Z.eqb Pos.eqb]. cbn zeta.
  unfold response_json. rewrite Hb. cbn [py_in].
  rewrite bool_decide_eq_false_2; [|rewrite Hm; by intros [? ?]].
  cbn [after_request token]. by rewrite Hc, Ht.
Qed.

(** X3: after [authenticate] has returned a token, [update_booking],
    [partial_update_booking] and [delete_booking] with the default
    [use_token] send the cookie headers carrying exactly that token, and no
    [Authorization] header. *)
Theorem X3_authenticate_then_mutating_calls_use_cookie
    (s s' : state) (t : json) (booking_id booking_data : json) :
  authenticate s = (Ok t, s') →
  issues (update_booking booking_id booking_data None) s'
    {| req_method := PUT; req_url := get_booking_url booking_id;
       req_kwargs := {| kw_params := None; kw_json := Some booking_data;
                        kw_data := None;
                        kw_headers := Some (get_auth_header t) |} |}
  ∧ issues (partial_update_booking booking_id booking_data None) s'
    {| req_method := PATCH; req_url := get_booking_url booking_id;
       req_kwargs := {| kw_params := None; kw_json := Some booking_data;
                        kw_data := None;
                        kw_headers := Some (get_auth_header t) |} |}
  ∧ issues (delete_booking booking_id None) s'
    {| req_method := DELETE; req_url := get_booking_url booking_id;
       req_kwargs := {| kw_params := None; kw_json := None;
                        kw_data := None;
                        kw_headers := Some (get_auth_header t) |} |}
  ∧ get_auth_header t !! "Cookie" = Some ("token=" +:+ format t)
  ∧ get_auth_header t !! "Authorization" = None.
Proof.
  intros Ha. rewrite authenticate_unfold in Ha.
  destruct (create_token None None s) as [[r|e] s1]; [|done].
  destruct (status_code r =? 200); [|done]. cbn [andb] in Ha.
  destruct (truthy (token s1)) eqn:Ht; [|done].
  injection Ha as <- <-.
  rewrite <- (mutating_headers_token None (token s1)) by done.
  split; [apply update_booking_issues|].
  split; [apply partial_update_booking_issues|].
  split; [apply delete_booking_issues|].
  rewrite mutating_headers_token by done.
  split; [apply get_auth_header_cookie|].
  by rewrite get_auth_header_other.
Qed.

End MoreClientProperties.

(** ** The schemas, characterised *)


Lemma is_valid_object_only s v :
  sch_type s = [TObject] → is_valid s v = true → ∃ m, v = JObj m.
Proof.
  intros Hty Hv%is_valid_type_ok. unfold type_ok in Hv. rewrite Hty in Hv.
  destruct v; try discriminate Hv. eauto.
Qed.

Lemma is_valid_string v :
  is_valid (Schema [TString] [] [] true None) v = true ↔ ∃ x, v = JStr x.
Proof.
  split.
  - destruct v; try discriminate 1; eauto.
  - by intros [x ->].
Qed.

Lemma is_valid_integer v :
  is_valid (Schema [TInteger] [] [] true None) v = true
  ↔ has_type TInteger v = true.
Proof. destruct v; cbn; try done. by rewrite orb_false_r, andb_true_r. Qed.

Lemma is_valid_boolean v :
  is_valid (Schema [TBoolean] [] [] true None) v = true ↔ ∃ b, v = JBool b.
Proof.
  split.
  - destruct v; try discriminate 1; eauto.
  - by intros [x ->].
Qed.

Lemma is_valid_string_or_null v :
  is_valid (Schema [TString; TNull] [] [] true None) v = true
  ↔ v = JNull ∨ ∃ x, v = JStr x.
Proof.
  split.
  - destruct v; try discriminate 1; eauto.
  - by intros [->|[x ->]].
Qed.

(** A closed object schema with one required property. *)
Lemma is_valid_one_property k sub v :
  is_valid (Schema [TObject] [k] [(k, sub)] false None) v = true
  ↔ ∃ x, v = JObj {[k := x]} ∧ is_valid sub x = true.
Proof.
  split.
  - intros Hv. assert (∃ m, v = JObj m) as [m ->]
      by (eapply is_valid_object_only; [|exact Hv]; reflexivity).
    apply is_valid_JObj_true in Hv as (_ & Hr & Hp & Ha).
    cbn [sch_required sch_properties sch_additionalProperties] in *.
    destruct (Hr k) as [x Hx]; [by constructor|].
    exists x. split; [|eapply Hp; [by constructor|done]].
    f_equal. apply map_eq. intros i.
    destruct (decide (i = k)) as [->|Hi].
    + by rewrite lookup_singleton_eq.
    + rewrite lookup_singleton_ne by done.
      destruct (m !! i) as [y|] eqn:Hy; [|done].
      specialize (Ha eq_refl i (mk_is_Some _ _ Hy)).
      cbn in Ha. apply list_elem_of_singleton in Ha. done.
  - intros (x & -> & Hx). apply is_valid_JObj_true.
    cbn [sch_required sch_properties sch_additionalProperties].
    split; [done|]. split; [|split].
    + intros i ->%list_elem_of_singleton. rewrite lookup_singleton_eq. eauto.
    + intros i sub' y [= -> ->]%list_elem_of_singleton.
      rewrite lookup_singleton_eq. by intros [= <-].
    + intros _ i [y Hy]. apply lookup_singleton_Some in Hy as [<- _].
      cbn. by constructor.
Qed.

(** A closed object schema with two required properties. *)
Lemma is_valid_two_properties k1 sub1 k2 sub2 v :
  k1 ≠ k2 →
  is_valid (Schema [TObject] [k1; k2] [(k1, sub1); (k2, sub2)] false None) v
  = true
  ↔ ∃ x1 x2, v = JObj (<[k1 := x1]> {[k2 := x2]})
             ∧ is_valid sub1 x1 = true ∧ is_valid sub2 x2 = true.
Proof.
  intros Hne. split.
  - intros Hv. assert (∃ m, v = JObj m) as [m ->]
      by (eapply is_valid_object_only; [|exact Hv]; reflexivity).
    apply is_valid_JObj_true in Hv as (_ & Hr & Hp & Ha).
    cbn [sch_required sch_properties sch_additionalProperties] in *.
    destruct (Hr k1) as [x1 Hx1]; [set_solver|].
    destruct (Hr k2) as [x2 Hx2]; [set_solver|].
    exists x1, x2. split; [|split].
    + f_equal. apply map_eq. intros i.
      destruct (decide (i = k1)) as [->|Hi1].
      { by rewrite lookup_insert_eq. }
      rewrite lookup_insert_ne by done.
      destruct (decide (i = k2)) as [->|Hi2].
      { by rewrite lookup_singleton_eq. }
      rewrite lookup_singleton_ne by done.
      destruct (m !! i) as [y|] eqn:Hy; [|done].
      specialize (Ha eq_refl i (mk_is_Some _ _ Hy)). cbn in Ha.
      apply elem_of_cons in Ha as [->|Ha]; [done|].
      by apply list_elem_of_singleton in Ha.
    + eapply Hp; [|done]. set_solver.
    + eapply Hp; [|done]. set_solver.
  - intros (x1 & x2 & -> & Hx1 & Hx2). apply is_valid_JObj_true.
    cbn [sch_required sch_properties sch_additionalProperties].
    split; [done|]. split; [|split].
    + intros i Hi. apply elem_of_cons in Hi as [->|Hi].
      { rewrite lookup_insert_eq. eauto. }
      apply list_elem_of_singleton in Hi as ->.
      rewrite lookup_insert_ne, lookup_singleton_eq by done. eauto.
    + intros i sub' y Hi. apply elem_of_cons in Hi as [[= -> ->]|Hi].
      { rewrite lookup_insert_eq. by intros [= <-]. }
      apply list_elem_of_singleton in Hi as [= -> ->].
      rewrite lookup_insert_ne, lookup_singleton_eq by done. by intros [= <-].
    + intros _ i [y Hy]. cbn.
      destruct (decide (i = k1)) as [->|Hi1]; [set_solver|].
      rewrite lookup_insert_ne in Hy by done.
      apply lookup_singleton_Some in Hy as [<- _]. set_solver.
Qed.

Lemma BOOKING_DATES_SCHEMA_valid v :
  is_valid BOOKING_DATES_SCHEMA v = true ↔ dates_shape v.
Proof.
  unfold BOOKING_DATES_SCHEMA, dates_shape.
  rewrite is_valid_two_properties by done.
  split.
  - intros (x1 & x2 & -> & [c1 ->]%is_valid_string & [c2 ->]%is_valid_string).
    eauto.
  - intros (c1 & c2 & ->). exists (JStr c1), (JStr c2).
    rewrite !is_valid_string. eauto.
Qed.

Lemma AUTH_RESPONSE_SCHEMA_valid v :
  is_valid AUTH_RESPONSE_SCHEMA v = true
  ↔ ∃ t, v = JObj {["token" := JStr t]}.
Proof.
  unfold AUTH_RESPONSE_SCHEMA. rewrite is_valid_one_property. split.
  - intros (x & -> & [t ->]%is_valid_string). eauto.
  - intros [t ->]. exists (JStr t). by rewrite is_valid_string; eauto.
Qed.

Lemma AUTH_ERROR_SCHEMA_valid v :
  is_valid AUTH_ERROR_SCHEMA v = true
  ↔ ∃ t, v = JObj {["reason" := JStr t]}.
Proof.
  unfold AUTH_ERROR_SCHEMA. rewrite is_valid_one_property. split.
  - intros (x & -> & [t ->]%is_valid_string). eauto.
  - intros [t ->]. exists (JStr t). by rewrite is_valid_string; eauto.
Qed.

(** X8: a JSON value validates against [AUTH_RESPONSE_SCHEMA] exactly when
    it is an object with the single field ["token"] holding a string, and
    against [AUTH_ERROR_SCHEMA] exactly when it is an object with the single
    field ["reason"] holding a string; no value validates against both. *)
Theorem X8_auth_schemas_characterised (v : json) :
  (is_valid AUTH_RESPONSE_SCHEMA v = true
   ↔ ∃ t, v = JObj {["token" := JStr t]})
  ∧ (is_valid AUTH_ERROR_SCHEMA v = true
     ↔ ∃ t, v = JObj {["reason" := JStr t]})
  ∧ ¬ (is_valid AUTH_RESPONSE_SCHEMA v = true
       ∧ is_valid AUTH_ERROR_SCHEMA v = true).
Proof.
  split; [apply AUTH_RESPONSE_SCHEMA_valid|].
  split; [apply AUTH_ERROR_SCHEMA_valid|].
  rewrite AUTH_RESPONSE_SCHEMA_valid, AUTH_ERROR_SCHEMA_valid.
  intros [[t ->] [t' Heq]].
  apply (f_equal (λ v, py_getitem v "token")) in Heq. cbn [py_getitem] in Heq.
  by rewrite lookup_singleton_eq, lookup_singleton_ne in Heq.
Qed.

(** X7: a value validates against [BOOKING_ID_SCHEMA] exactly when it is
    an object with the single field ["bookingid"] holding an integer, and
    against [BOOKING_IDS_LIST_SCHEMA] exactly when it is an array of such
    objects; the empty array validates. *)
Theorem X7_booking_ids_list_schema_characterised (v : json) :
  (is_valid BOOKING_ID_SCHEMA v = true
   ↔ ∃ x, v = JObj {["bookingid" := x]} ∧ has_type TInteger x = true)
  ∧ (is_valid BOOKING_IDS_LIST_SCHEMA v = true
     ↔ ∃ l, v = JArr l
            ∧ Forall (λ e, ∃ x, e = JObj {["bookingid" := x]}
                                ∧ has_type TInteger x = true) l)
  ∧ is_valid BOOKING_IDS_LIST_SCHEMA (JArr []) = true.
Proof.
  assert (H1 : ∀ e, is_valid BOOKING_ID_SCHEMA e = true
               ↔ ∃ x, e = JObj {["bookingid" := x]}
                      ∧ has_type TInteger x = true).
  { intros e. unfold BOOKING_ID_SCHEMA. rewrite is_valid_one_property.
    by setoid_rewrite is_valid_integer. }
  split; [apply H1|]. split; [|done].
  split.
  - intros Hv. destruct v; try discriminate Hv. exists l. split; [done|].
    rewrite BOOKING_IDS_LIST_SCHEMA_valid, forallb_forall in Hv.
    apply Forall_forall. intros e He%list_elem_of_In. by apply H1, Hv.
  - intros (l & -> & Hl). rewrite BOOKING_IDS_LIST_SCHEMA_valid.
    apply forallb_forall. intros e He%list_elem_of_In. apply H1.
    by eapply Forall_forall in Hl.
Qed.

Lemma BOOKING_SCHEMA_valid_obj m :
  is_valid BOOKING_SCHEMA (JObj m) = true ↔ booking_shape m.
Proof.
  rewrite is_valid_JObj_true.
  cbn [BOOKING_SCHEMA sch_required sch_properties sch_additionalProperties].
  unfold booking_shape. split.
  - intros (_ & Hr & Hp & Ha).
    split; [exact (Ha eq_refl)|].
    destruct (Hr "firstname") as [x1 H1]; [by repeat constructor|].
    destruct (Hr "lastname") as [x2 H2]; [by repeat constructor|].
    destruct (Hr "totalprice") as [x3 H3]; [by repeat constructor|].
    destruct (Hr "depositpaid") as [x4 H4]; [by repeat constructor|].
    destruct (Hr "bookingdates") as [x5 H5]; [by repeat constructor|].
    pose proof (Hp "firstname" _ _ ltac:(by repeat constructor) H1)
      as [y1 ->]%is_valid_string.
    pose proof (Hp "lastname" _ _ ltac:(by repeat constructor) H2)
      as [y2 ->]%is_valid_string.
    pose proof (Hp "totalprice" _ _ ltac:(by repeat constructor) H3)
      as Hi%is_valid_integer.
    pose proof (Hp "depositpaid" _ _ ltac:(by repeat constructor) H4)
      as [y4 ->]%is_valid_boolean.
    pose proof (Hp "bookingdates" _ _ ltac:(by repeat constructor) H5)
      as Hd%BOOKING_DATES_SCHEMA_valid.
    do 5 (split; [by eauto|]).
    destruct (m !! "additionalneeds") as [x6|] eqn:H6; [|by left].
    pose proof (Hp "additionalneeds" _ _ ltac:(by repeat constructor) H6)
      as [->|[y6 ->]]%is_valid_string_or_null; eauto.
  - intros (Ha & [x1 H1] & [x2 H2] & (x3 & H3 & Hi) & [x4 H4]
            & (x5 & H5 & Hd) & [H6|[H6|[x6 H6]]]).
    all: split; [done|]; split; [|split; [|by intros _]].
    all: try (intros k Hk; set_unfold in Hk; by destruct_or!; subst k; eauto).
    all: intros k sub v Hk Hv; set_unfold in Hk.
    all: destruct_or!; try done; injection Hk as -> ->;
      try (first [rewrite H1 in Hv | rewrite H2 in Hv | rewrite H3 in Hv
                 | rewrite H4 in Hv | rewrite H5 in Hv];
           injection Hv as <-;
           first [reflexivity | by apply is_valid_integer
                 | by apply BOOKING_DATES_SCHEMA_valid]).
    all: apply is_valid_string_or_null; rewrite H6 in Hv;
      first [done | injection Hv as <-; eauto].
Qed.

(** X10: a value validates against [BOOKING_DATES_SCHEMA] exactly when it
    is an object with just the two string fields ["checkin"] and
    ["checkout"] (any strings); it validates against [BOOKING_SCHEMA] exactly
    when it is an object with no field besides the six documented ones, a
    string [firstname] and [lastname], an integer [totalprice], a boolean
    [depositpaid], such a [bookingdates] object, and an [additionalneeds]
    that is absent, [null] or a string. *)
Theorem X10_booking_schema_characterised (v : json) :
  (is_valid BOOKING_DATES_SCHEMA v = true ↔ dates_shape v)
  ∧ (is_valid BOOKING_SCHEMA v = true ↔ ∃ m, v = JObj m ∧ booking_shape m).
Proof.
  split; [apply BOOKING_DATES_SCHEMA_valid|]. split.
  - intros Hv.
    assert (∃ m, v = JObj m) as [m ->]
      by (eapply is_valid_object_only; [|exact Hv]; reflexivity).
    exists m. split; [done|]. by apply BOOKING_SCHEMA_valid_obj.
  - intros (m & -> & Hm). by apply BOOKING_SCHEMA_valid_obj.
Qed.

Lemma BOOKING_RESPONSE_SCHEMA_valid v :
  is_valid BOOKING_RESPONSE_SCHEMA v = true
  ↔ ∃ bookingid booking,
      v = JObj (<["bookingid" := bookingid]> {["booking" := JObj booking]})
      ∧ has_type TInteger bookingid = true
      ∧ booking_shape booking.
Proof.
  unfold BOOKING_RESPONSE_SCHEMA. rewrite is_valid_two_properties by done.
  split.
  - intros (x1 & x2 & -> & Hi%is_valid_integer & Hb).
    assert (∃ m, x2 = JObj m) as [m ->]
      by (eapply is_valid_object_only; [|exact Hb]; reflexivity).
    apply BOOKING_SCHEMA_valid_obj in Hb. eauto 6.
  - intros (x & b & -> & Hi & Hb). exists x, (JObj b).
    split; [done|]. split; [by apply is_valid_integer|].
    by apply BOOKING_SCHEMA_valid_obj.
Qed.

(** X11: a value validates against [BOOKING_RESPONSE_SCHEMA] exactly when
    it is an object with just the two fields ["bookingid"], an integer, and
    ["booking"], an object of the shape [BOOKING_SCHEMA] describes. *)
Theorem X11_booking_response_schema_characterised (v : json) :
  is_valid BOOKING_RESPONSE_SCHEMA v = true
  ↔ ∃ bookingid booking,
      v = JObj (<["bookingid" := bookingid]> {["booking" := JObj booking]})
      ∧ has_type TInteger bookingid = true
      ∧ is_valid BOOKING_SCHEMA (JObj booking) = true
      ∧ booking_shape booking.
Proof.
  rewrite BOOKING_RESPONSE_SCHEMA_valid. split.
  - intros (x & b & -> & Hi & Hb). exists x, b.
    do 2 (split; [done|]). split; [|done]. by apply BOOKING_SCHEMA_valid_obj.
  - intros (x & b & -> & Hi & _ & Hb). eauto.
Qed.

(** ** Schemas and client together *)

Section SchemaAndClientProperties.
Context `{Environment} `{Network}.

(** X9: when [/auth] answers 200 with a body that validates against
    [AUTH_RESPONSE_SCHEMA], [create_token] returns the response and the
    stored token is the string in its ["token"] field; when the body
    validates against [AUTH_ERROR_SCHEMA], [create_token] returns the
    response and leaves the token unchanged. *)
Theorem X9_schema_valid_auth_response_is_stored
    (username password : option string) (s : state) (r : response)
    (w : world) (v : json) :
  send (auth_request username password) (net s) = (Ok r, w) →
  status_code r = 200 →
  body r = Some v →
  (is_valid AUTH_RESPONSE_SCHEMA v = true →
     ∃ t, v = JObj {["token" := JStr t]}
          ∧ create_token username password s
            = (Ok r, {| token := JStr t; net := w;
                        history := history s
                                   ++ [auth_request username password] |}))
  ∧ (is_valid AUTH_ERROR_SCHEMA v = true →
     create_token username password s
     = (Ok r, after_request s (auth_request username password) w)).
Proof.
  intros Hs Hc Hb. split.
  - intros [t ->]%AUTH_RESPONSE_SCHEMA_valid. exists t. split; [done|].
    apply create_token_stores; [done..|].
    unfold token_field. rewrite Hb. apply lookup_singleton_eq.
  - intros [t ->]%AUTH_ERROR_SCHEMA_valid.
    rewrite create_token_unfold, Hs, Hc. cbn [Z.eqb Pos.eqb]. cbn zeta.
    unfold response_json. rewrite Hb. cbn [py_in].
    rewrite bool_decide_eq_false_2; [done|].
    rewrite lookup_singleton_ne by done. by intros [? ?].
Qed.

Lemma authenticated_client_unfold s :
  authenticated_client s
  = match authenticate
            {| token := JNull; net := net s; history := history s |} with
    | (Ok _, s') => (Ok tt, s')
    | (Raise e, s') => (Raise e, s')
    end.
Proof.
  unfold authenticated_client, bind, init, set_token, ret.
  by destruct (authenticate _) as [[t|e] s'].
Qed.

Lemma authenticate_success s r w v :
  send (auth_request None None) (net s) = (Ok r, w) →
  status_code r = 200 → token_field r = Some v → truthy v = true →
  authenticate s
  = (Ok v, {| token := v; net := w;
              history := history s ++ [auth_request None None] |}).
Proof.
  intros Hs Hc Hf Ht.
  rewrite authenticate_unfold, (create_token_stores _ _ _ _ _ _ Hs Hc Hf), Hc.
  cbn [token Z.eqb Pos.eqb andb]. by rewrite Ht.
Qed.

Lemma authenticate_failure s :
  (∀ r w v, send (auth_request None None) (net s) = (Ok r, w) →
            status_code r = 200 → token_field r = Some v → truthy v = false) →
  truthy (token s) = false →
  ∃ e, (authenticate s).1 = Raise e.
Proof.
  intros Hbad Hold. rewrite authenticate_unfold.
  destruct (send (auth_request None None) (net s)) as [[r|e] w] eqn:Hs.
  2:{ rewrite (create_token_raises _ _ _ _ _ Hs). eauto. }
  destruct (decide (status_code r = 200)) as [Hc|Hc].
  2:{ rewrite (create_token_not_200 _ _ _ _ _ Hs Hc).
      apply Z.eqb_neq in Hc as ->. eauto. }
  destruct (token_field r) as [v|] eqn:Hf.
  - rewrite (create_token_stores _ _ _ _ _ _ Hs Hc Hf).
    cbn [token]. rewrite (Hbad r w v), andb_false_r by done. eauto.
  - pose proof (create_token_keeps _ _ _ _ _ Hs (or_intror Hf)) as Hk.
    destruct (create_token None None s) as [[r'|e'] s1]; [|by eauto].
    cbn [snd] in Hk. subst s1. cbn [after_request token].
    rewrite Hold, andb_false_r. eauto.
Qed.

(** X17: the [authenticated_client] fixture succeeds exactly when [/auth]
    answers 200 with a ["token"] field that is truthy; the client it returns
    then holds that very field as its token (a token left over from before
    cannot stand in, since the client is new); one request is sent in every
    case. *)
Theorem X17_authenticated_client_holds_the_issued_token (s : state) :
  let rq := auth_request None None in
  ((authenticated_client s).1 = Ok tt
   ↔ ∃ r v, (send rq (net s)).1 = Ok r ∧ status_code r = 200
            ∧ token_field r = Some v ∧ truthy v = true)
  ∧ (∀ r, (authenticated_client s).1 = Ok tt →
          (send rq (net s)).1 = Ok r →
          token_field r = Some (token (authenticated_client s).2))
  ∧ history (authenticated_client s).2 = history s ++ [rq].
Proof.
  intros rq. rewrite authenticated_client_unfold.
  set (s0 := {| token := JNull; net := net s; history := history s |}).
  assert (Hcases :
    (∃ r w v, send rq (net s) = (Ok r, w) ∧ status_code r = 200
              ∧ token_field r = Some v ∧ truthy v = true
              ∧ authenticate s0
                = (Ok v, {| token := v; net := w;
                            history := history s ++ [rq] |}))
    ∨ ((∀ r w v, send rq (net s) = (Ok r, w) → status_code r = 200 →
                 token_field r = Some v → truthy v = false)
       ∧ ∃ e, (authenticate s0).1 = Raise e)).
  { destruct (send rq (net s)) as [[r|e] w] eqn:Hs.
    2:{ right. split; [done|]. apply authenticate_failure; [|done].
        intros r w' v. change (net s0) with (net s). fold rq.
        by rewrite Hs. }
    destruct (decide (status_code r = 200)) as [Hc|Hc].
    2:{ right. split; [by intros ??? [= <- <-]|].
        apply authenticate_failure; [|done].
        intros r' w' v. change (net s0) with (net s). fold rq.
        rewrite Hs. by intros [= <- <-]. }
    destruct (token_field r) as [v|] eqn:Hf.
    2:{ right. split; [intros ??? [= <- <-]; congruence|].
        apply authenticate_failure; [|done].
        intros r' w' v. change (net s0) with (net s). fold rq.
        rewrite Hs. intros [= <- <-]. congruence. }
    destruct (truthy v) eqn:Ht.
    - left. exists r, w, v. do 4 (split; [done|]).
      exact (authenticate_success s0 r w v Hs Hc Hf Ht).
    - right. split; [intros ??? [= <- <-]; congruence|].
      apply authenticate_failure; [|done].
      intros r' w' v'. change (net s0) with (net s). fold rq.
      rewrite Hs. intros [= <- <-]. congruence. }
  destruct Hcases as [(r & w & v & Hs & Hc & Hf & Ht & ->)
                     |[Hbad [e He]]].
  - rewrite Hs. cbn [fst snd token history].
    split; [|split; [|done]].
    + split; [|done]. intros _. by exists r, v.
    + by intros r' _ [= <-].
  - destruct (authenticate s0) as [[t|e'] s'] eqn:Ha; [done|].
    cbn [fst snd]. split; [|split].
    + split; [done|]. intros (r & v & Hs & Hc & Hf & Ht).
      destruct (send rq (net s)) as [r0 w] eqn:Hsend. cbn [fst] in Hs.
      subst r0. rewrite (Hbad r w v) in Ht; done.
    + done.
    + change s' with (@Raise json e', s').2. rewrite <- Ha.
      by rewrite authenticate_state, create_token_history.
Qed.

(** X6: [get_booking_url] gives different URLs for different integer ids
    and for different string ids, and never gives the URL of the booking
    collection, not even for an empty id. *)
Theorem X6_get_booking_url_distinguishes_ids :
  (∀ a b : Z, get_booking_url (JInt a) = get_booking_url (JInt b) → a = b)
  ∧ (∀ a b : string,
       get_booking_url (JStr a) = get_booking_url (JStr b) → a = b)
  ∧ (∀ booking_id, get_booking_url booking_id ≠ BOOKING_ENDPOINT).
Proof.
  unfold get_booking_url. split; [|split].
  - intros a b Heq. cbn [format] in Heq.
    apply (inj (String.app _)), (inj (String.app _)) in Heq.
    by apply (inj pretty).
  - intros a b Heq. cbn [format] in Heq.
    by apply (inj (String.app _)), (inj (String.app _)) in Heq.
  - intros booking_id Heq.
    apply (f_equal String.length) in Heq.
    rewrite string_app_length in Heq.
    change (String.length ("/" +:+ format booking_id))
      with (S (String.length (format booking_id))) in Heq.
    lia.
Qed.

End SchemaAndClientProperties.

(** ** More on the fixtures *)


Section MoreFixtureProperties.
Context `{Environment} `{Network}.

Lemma create_booking_issues booking_data s :
  issues (create_booking booking_data) s (create_request booking_data).
Proof. apply session_request_issues. Qed.

Lemma created_booking_setup_unfold valid_booking_data s :
  created_booking_setup valid_booking_data s =
  let rq := create_request valid_booking_data in
  match send rq (net s) with
  | (Raise e, w) => (Raise e, after_request s rq w)
  | (Ok r, w) =>
      let s1 := after_request s rq w in
      if status_code r =? 200 then
        match response_json r with
        | Raise e => (Raise e, s1)
        | Ok data =>
            match py_getitem data "bookingid" with
            | Raise e => (Raise e, s1)
            | Ok bookingid =>
                match py_getitem data "booking" with
                | Raise e => (Raise e, s1)
                | Ok booking =>
                    (Ok (JObj (list_to_map [("bookingid", bookingid);
                                            ("booking", booking)]), data),
                     s1)
                end
            end
        end
      else (Raise AssertionError, s1)
  end.
Proof.
  unfold created_booking_setup. unfold bind at 1.
  rewrite (create_booking_issues valid_booking_data s). cbn zeta.
  destruct (send _ (net s)) as [[r|e] w]; cbn [fst snd]; [|done].
  unfold bind at 1, assert.
  destruct (status_code r =? 200); [|done].
  unfold ret, bind, lift.
  destruct (response_json r) as [data|e]; [|done].
  destruct (py_getitem data "bookingid") as [bookingid|e]; [|done].
  by destruct (py_getitem data "booking").
Qed.

(** X12: when the session answers the create request of [created_booking]
    with a response, the fixture's setup raises [AssertionError] if the
    status is not 200 and [JSONDecodeError] if the 200 body is not JSON; for
    a 200 body that is an object it raises [KeyError] for a missing
    ["bookingid"] or ["booking"] and otherwise yields a dictionary with
    exactly these two entries; for a body that validates against
    [BOOKING_RESPONSE_SCHEMA] it yields the body itself. *)
Theorem X12_created_booking_setup_outcomes
    (valid_booking_data : json) (s : state) (r : response) (w : world) :
  send (create_request valid_booking_data) (net s) = (Ok r, w) →
  let s1 := after_request s (create_request valid_booking_data) w in
  (status_code r ≠ 200 →
     created_booking_setup valid_booking_data s = (Raise AssertionError, s1))
  ∧ (status_code r = 200 → body r = None →
     created_booking_setup valid_booking_data s = (Raise JSONDecodeError, s1))
  ∧ (∀ m, status_code r = 200 → body r = Some (JObj m) →
       created_booking_setup valid_booking_data s
       = (match m !! "bookingid", m !! "booking" with
          | Some bookingid, Some booking =>
              Ok (JObj (<["bookingid" := bookingid]> {["booking" := booking]}),
                  JObj m)
          | None, _ => Raise (KeyError "bookingid")
          | Some _, None => Raise (KeyError "booking")
          end, s1))
  ∧ (∀ v, status_code r = 200 → body r = Some v →
       is_valid BOOKING_RESPONSE_SCHEMA v = true →
       created_booking_setup valid_booking_data s = (Ok (v, v), s1)).
Proof.
  intros Hs s1. rewrite created_booking_setup_unfold. cbn zeta.
  rewrite Hs. fold s1. unfold response_json.
  split; [|split; [|split]].
  - intros Hc. by apply Z.eqb_neq in Hc as ->.
  - intros -> ->. done.
  - intros m -> ->. cbn [Z.eqb Pos.eqb py_getitem].
    destruct (m !! "bookingid"); [|done]. by destruct (m !! "booking").
  - intros v -> -> (bid & bk & -> & _)%BOOKING_RESPONSE_SCHEMA_valid.
    cbn [Z.eqb Pos.eqb py_getitem].
    rewrite lookup_insert_eq, lookup_insert_ne, lookup_singleton_eq by done.
    done.
Qed.

(** X13: when the setup of [created_booking] has yielded, its cleanup, run
    in any later state, hands the session exactly one request: the DELETE of
    the booking whose id was yielded, authenticated by the client's token at
    that time; and it returns normally. *)
Theorem X13_created_booking_deletes_the_booking_it_created
    (valid_booking_data : json) (s : state) (yielded data : json)
    (s1 : state) :
  created_booking_setup valid_booking_data s = (Ok (yielded, data), s1) →
  ∃ bookingid,
    py_getitem yielded "bookingid" = Ok bookingid
    ∧ py_getitem data "bookingid" = Ok bookingid
    ∧ ∀ s2, ∃ w,
        created_booking_teardown data s2
        = (Ok tt, after_request s2 (cleanup_request (token s2) bookingid) w).
Proof.
  rewrite created_booking_setup_unfold. cbn zeta.
  destruct (send _ (net s)) as [[r|e] w]; [|done].
  destruct (status_code r =? 200); [|done].
  destruct (response_json r) as [data'|e]; [|done].
  destruct (py_getitem data' "bookingid") as [bookingid|e] eqn:Hid; [|done].
  destruct (py_getitem data' "booking") as [booking|e]; [|done].
  intros [= <- <- <-]. exists bookingid.
  split; [|split; [done|]].
  { cbn [py_getitem list_to_map foldr uncurry fst snd].
    by rewrite lookup_insert_eq. }
  intros s2. unfold created_booking_teardown, try_except, bind at 1, lift.
  rewrite Hid. unfold bind.
  rewrite (delete_booking_issues bookingid None s2).
  fold (cleanup_request (token s2) bookingid).
  destruct (send _ (net s2)) as [[r'|e] w']; cbn [fst snd]; by exists w'.
Qed.

Lemma multiple_bookings_create_spec range_ booking_ids s booking_ids' s' :
  multiple_bookings_create range_ booking_ids s = (Ok booking_ids', s') →
  token s' = token s
  ∧ history s'
    = history s ++ (create_request ∘ multiple_bookings_data <$> range_)
  ∧ ∃ new, booking_ids' = booking_ids ++ new
           ∧ (length new ≤ length range_)%nat.
Proof.
  revert booking_ids s.
  induction range_ as [|i range_ IH]; intros booking_ids s.
  - intros [= <- <-]. cbn. rewrite app_nil_r. split; [done|].
    split; [done|]. exists []. by rewrite app_nil_r.
  - cbn [multiple_bookings_create]. unfold bind at 1.
    rewrite (create_booking_issues (multiple_bookings_data i) s).
    destruct (send _ (net s)) as [[r|e] w]; cbn [fst snd]; [|done].
    set (s1 := after_request s _ w).
    unfold bind at 1.
    destruct (status_code r =? 200).
    + unfold bind at 1, lift.
      destruct (response_json r) as [data|e]; [|done].
      unfold bind at 1.
      destruct (py_getitem data "bookingid") as [bookingid|e]; [|done].
      unfold ret at 1. intros Hrest.
      apply IH in Hrest as (Htok & Hhist & new & -> & Hlen).
      split; [done|]. split.
      { rewrite Hhist. cbn [fmap list_fmap after_request history s1].
        by rewrite <- app_assoc. }
      exists (bookingid :: new). rewrite <- app_assoc. split; [done|].
      cbn. lia.
    + unfold ret at 1. intros Hrest.
      apply IH in Hrest as (Htok & Hhist & new & -> & Hlen).
      split; [done|]. split.
      { rewrite Hhist. cbn [fmap list_fmap after_request history s1].
        by rewrite <- app_assoc. }
      exists new. split; [done|]. cbn. lia.
Qed.

(** X14: when the setup of [multiple_bookings] yields, it has sent exactly
    the three create requests for the indices 0, 1, 2 in this order, has not
    changed the token, and the yielded list (the same list the cleanup
    iterates over) has at most three ids. *)
Theorem X14_multiple_bookings_setup_yields_at_most_three
    (s s' : state) (yielded booking_ids : list json) :
  multiple_bookings_setup s = (Ok (yielded, booking_ids), s') →
  yielded = booking_ids
  ∧ (length booking_ids ≤ 3)%nat
  ∧ token s' = token s
  ∧ history s'
    = history s ++ [create_request (multiple_bookings_data 0);
                    create_request (multiple_bookings_data 1);
                    create_request (multiple_bookings_data 2)].
Proof.
  unfold multiple_bookings_setup, bind.
  destruct (multiple_bookings_create [0; 1; 2] [] s) as [[ids|e] s1] eqn:Hc;
    [|done].
  intros [= <- <- <-].
  apply multiple_bookings_create_spec in Hc as (Htok & Hhist & new & -> & Hl).
  done.
Qed.

Lemma multiple_bookings_create_skips range_ booking_ids s :
  (∀ rq w, ∃ r w', send rq w = (Ok r, w') ∧ status_code r ≠ 200) →
  ∃ s', multiple_bookings_create range_ booking_ids s = (Ok booking_ids, s').
Proof.
  intros Hnet. revert s.
  induction range_ as [|i range_ IH]; intros s; [by eexists|].
  cbn [multiple_bookings_create]. unfold bind at 1.
  rewrite (create_booking_issues (multiple_bookings_data i) s).
  destruct (Hnet (create_request (multiple_bookings_data i)) (net s))
    as (r & w & -> & Hc).
  cbn [fst snd]. apply Z.eqb_neq in Hc as ->.
  unfold bind, ret. apply IH.
Qed.

(** X15: when the API answers every request with a status other than 200,
    the setup of [multiple_bookings] raises nothing: it sends its three
    create requests and yields the empty list. *)
Theorem X15_multiple_bookings_setup_skips_rejected_creations (s : state) :
  (∀ rq w, ∃ r w', send rq w = (Ok r, w') ∧ status_code r ≠ 200) →
  ∃ s', multiple_bookings_setup s = (Ok ([], []), s')
        ∧ history s'
          = history s ++ [create_request (multiple_bookings_data 0);
                          create_request (multiple_bookings_data 1);
                          create_request (multiple_bookings_data 2)].
Proof.
  intros Hnet. unfold multiple_bookings_setup, bind.
  destruct (multiple_bookings_create_skips [0; 1; 2] [] s Hnet) as [s' Hc].
  rewrite Hc. exists s'. split; [done|].
  by apply multiple_bookings_create_spec in Hc as (_ & -> & _).
Qed.

End MoreFixtureProperties.


(** X16: for every index [i], the payload [multiple_bookings] builds is
    the well-typed booking payload with first name [Test{i}], last name
    [User{i}] and price [100 + 50 i], it validates against [BOOKING_SCHEMA],
    and the [Booking] model accepts it exactly when [i >= -2] (so for the
    indices 0, 1, 2 the fixture uses). *)
Theorem X16_multiple_bookings_data_is_well_formed (i : Z) :
  let dates :=
    {| Models.checkin := "2024-0" +:+ pretty (i + 1) +:+ "-01";
       Models.checkout := "2024-0" +:+ pretty (i + 1) +:+ "-10" |} in
  multiple_bookings_data i
  = Models.payload ("Test" +:+ pretty i) ("User" +:+ pretty i)
      (100 + i * 50) (i mod 2 =? 0) dates None
  ∧ is_valid BOOKING_SCHEMA (multiple_bookings_data i) = true
  ∧ (accepted_by_model_and_schema ("Test" +:+ pretty i) ("User" +:+ pretty i)
       (100 + i * 50) (i mod 2 =? 0) dates None
     ↔ -2 ≤ i).
Proof.
  intros dates.
  assert (Heq : multiple_bookings_data i
    = Models.payload ("Test" +:+ pretty i) ("User" +:+ pretty i)
        (100 + i * 50) (i mod 2 =? 0) dates None).
  { unfold multiple_bookings_data, Models.payload, Models.dates_payload.
    reflexivity. }
  split; [exact Heq|]. split.
  - rewrite Heq. apply BOOKING_SCHEMA_accepts_payload.
  - unfold accepted_by_model_and_schema.
    rewrite Booking_init_ok.
    split.
    + intros [(_ & _ & Hp) _]. lia.
    + intros Hi. split; [|apply BOOKING_SCHEMA_accepts_payload].
      split; [by intros [=]|]. split; [by intros [=]|]. lia.
Qed.

(** ** Instances of the further conditional properties *)

Lemma X1_create_token_witness :
  @send scripted_network (@auth_request plain_environment None None)
    (net (Runs.fresh [Ok Samples.html_response]))
  = (Ok Samples.html_response, [])
  ∧ status_code Samples.html_response = 200
  ∧ @create_token plain_environment scripted_network None None
      (Runs.fresh [Ok Samples.html_response])
    = (Raise JSONDecodeError,
       @Build_state scripted_network JNull []
         [@auth_request plain_environment None None]).
Proof.
  split; [reflexivity|]. split; [reflexivity|].
  apply (@X1_create_token_raises_on_malformed_success
           plain_environment scripted_network None None
           (Runs.fresh [Ok Samples.html_response]) Samples.html_response []
           eq_refl eq_refl).
  reflexivity.
Defined.

Lemma X2_authenticate_witness :
  truthy (JStr "old") = true
  ∧ @authenticate plain_environment scripted_network
      (Samples.holding_old_token [Ok Runs.bad_credentials_response])
    = (Ok (JStr "old"),
       @Build_state scripted_network (JStr "old") []
         [@auth_request plain_environment None None]).
Proof.
  split; [reflexivity|].
  apply (@X2_authenticate_returns_stale_token
           plain_environment scripted_network
           (Samples.holding_old_token [Ok Runs.bad_credentials_response])
           Runs.bad_credentials_response []
           {["reason" := JStr "Bad credentials"]});
    reflexivity.
Defined.

Lemma X3_authenticate_witness :
  @authenticate plain_environment scripted_network
    (Runs.fresh [Ok Runs.token_response])
  = (Ok (JStr "abc123"),
     @Build_state scripted_network (JStr "abc123") []
       [@auth_request plain_environment None None])
  ∧ @get_auth_header plain_environment (JStr "abc123") !! "Cookie"
    = Some "token=abc123".
Proof.
  split; [reflexivity|].
  apply (@X3_authenticate_then_mutating_calls_use_cookie
           plain_environment scripted_network
           (Runs.fresh [Ok Runs.token_response])
           (@Build_state scripted_network (JStr "abc123") []
              [@auth_request plain_environment None None])
           (JStr "abc123") (JInt 7) JNull eq_refl).
Defined.

Lemma X9_schema_valid_auth_response_witness :
  is_valid AUTH_RESPONSE_SCHEMA (JObj {["token" := JStr "abc123"]}) = true
  ∧ ∃ t,
      @create_token plain_environment scripted_network None None
        (Runs.fresh [Ok Runs.token_response])
      = (Ok Runs.token_response,
         @Build_state scripted_network (JStr t) []
           [@auth_request plain_environment None None]).
Proof.
  split; [reflexivity|].
  destruct (@X9_schema_valid_auth_response_is_stored
              plain_environment scripted_network None None
              (Runs.fresh [Ok Runs.token_response]) Runs.token_response []
              (JObj {["token" := JStr "abc123"]}) eq_refl eq_refl eq_refl)
    as [Hstore _].
  destruct (Hstore eq_refl) as (t & _ & Ht). exists t. exact Ht.
Defined.

Lemma X12_created_booking_setup_witness :
  @send scripted_network (@create_request plain_environment JNull)
    (net (Runs.fresh [Ok Runs.forbidden_response]))
  = (Ok Runs.forbidden_response, [])
  ∧ @created_booking_setup plain_environment scripted_network JNull
      (Runs.fresh [Ok Runs.forbidden_response])
    = (Raise AssertionError,
       @Build_state scripted_network JNull []
         [@create_request plain_environment JNull]).
Proof.
  split; [reflexivity|].
  apply (@X12_created_booking_setup_outcomes
           plain_environment scripted_network JNull
           (Runs.fresh [Ok Runs.forbidden_response])
           Runs.forbidden_response [] eq_refl).
  discriminate.
Defined.

Lemma X13_created_booking_witness :
  @created_booking_setup plain_environment scripted_network JNull
    (Runs.fresh [Ok Samples.booking_response])
  = (Ok (Samples.booking_body, Samples.booking_body),
     @Build_state scripted_network JNull []
       [@create_request plain_environment JNull])
  ∧ ∃ bookingid,
      py_getitem Samples.booking_body "bookingid" = Ok bookingid.
Proof.
  assert (Hsetup :
    @created_booking_setup plain_environment scripted_network JNull
      (Runs.fresh [Ok Samples.booking_response])
    = (Ok (Samples.booking_body, Samples.booking_body),
       @Build_state scripted_network JNull []
         [@create_request plain_environment JNull]))
    by (vm_compute; reflexivity).
  split; [exact Hsetup|].
  destruct (@X13_created_booking_deletes_the_booking_it_created
              plain_environment scripted_network JNull _ _ _ _ Hsetup)
    as (bookingid & Hid & _).
  exists bookingid. exact Hid.
Defined.

Lemma X14_multiple_bookings_setup_witness :
  @multiple_bookings_setup plain_environment scripted_network
    (Runs.fresh [Ok Samples.booking_response; Ok Runs.forbidden_response;
                 Ok Samples.booking_response])
  = (Ok ([JInt 7; JInt 7], [JInt 7; JInt 7]),
     @Build_state scripted_network JNull []
       (@create_request plain_environment ∘ multiple_bookings_data
          <$> [0; 1; 2]))
  ∧ (length [JInt 7; JInt 7] ≤ 3)%nat.
Proof.
  assert (Hsetup :
    @multiple_bookings_setup plain_environment scripted_network
      (Runs.fresh [Ok Samples.booking_response; Ok Runs.forbidden_response;
                   Ok Samples.booking_response])
    = (Ok ([JInt 7; JInt 7], [JInt 7; JInt 7]),
       @Build_state scripted_network JNull []
         (@create_request plain_environment ∘ multiple_bookings_data
            <$> [0; 1; 2])))
    by (vm_compute; reflexivity).
  split; [exact Hsetup|].
  exact (proj1 (proj2 (@X14_multiple_bookings_setup_yields_at_most_three
                         plain_environment scripted_network _ _ _ _ Hsetup))).
Defined.

Lemma X15_multiple_bookings_setup_witness :
  (∀ rq w, ∃ r w',
     @send (constant_network Runs.forbidden_response) rq w = (Ok r, w')
     ∧ status_code r ≠ 200)
  ∧ ∃ s',
      @multiple_bookings_setup plain_environment
        (constant_network Runs.forbidden_response)
        (@Build_state (constant_network Runs.forbidden_response) JNull tt [])
      = (Ok ([], []), s').
Proof.
  assert (Hnet : ∀ rq w, ∃ r w',
            @send (constant_network Runs.forbidden_response) rq w = (Ok r, w')
            ∧ status_code r ≠ 200).
  { intros rq w. exists Runs.forbidden_response, tt.
    split; [reflexivity|discriminate]. }
  split; [exact Hnet|].
  destruct (@X15_multiple_bookings_setup_skips_rejected_creations
              plain_environment (constant_network Runs.forbidden_response)
              (@Build_state (constant_network Runs.forbidden_response)
                 JNull tt []) Hnet)
    as (s' & Hs' & _).
  exists s'. exact Hs'.
Defined.
